(** * go_blog: the Markdown post pipeline

    The repository holds the program twice: [server.go], and a second
    [package main] file ([unnamed/part_000]) that differs from it in
    [PostData], which has a [Date] there, and in [PostHandler], which
    there tells a failed read from a failed parse.  Both are embedded
    here, each in a module of its own ([Server] and [Part000]); what they
    share word for word ([FileReader.Read] and [loadMarkdownPosts]) is
    embedded once.

    The program is glue around the operating system and four libraries
    (gin, goldmark, yaml.v2, adrg/frontmatter).  The file system is a tree
    of nodes, the text-level behaviour of the libraries is a record of
    functions ([Libs]), and every call the program's own code makes to the
    operating system or to a library is written to a trace, so that "is
    read", "is decoded" and "is rendered" are statements about the trace. *)

From Stdlib Require Import String Ascii List ZArith Lia Bool.
Import ListNotations.
Open Scope list_scope.
Open Scope string_scope.

(** ** Go's [strings] package, as far as the program uses it *)

Module strings.

(** The one-byte string "\n". *)
Definition nl : string := String (ascii_of_nat 10) "".

(** [strings.CutPrefix]: [s] without the leading [prefix]. *)
Fixpoint CutPrefix (s prefix : string) {struct prefix} : option string :=
  match prefix with
  | EmptyString => Some s
  | String p prefix' =>
      match s with
      | EmptyString => None
      | String c s' => if Ascii.eqb c p then CutPrefix s' prefix' else None
      end
  end.

Definition HasPrefix (s prefix : string) : bool :=
  match CutPrefix s prefix with Some _ => true | None => false end.

(** [strings.HasSuffix]: [suffix] is one of the tails of [s]. *)
Fixpoint HasSuffix (s suffix : string) : bool :=
  String.eqb s suffix ||
  match s with
  | EmptyString => false
  | String _ s' => HasSuffix s' suffix
  end.

(** [strings.Cut]: the text before and after the first instance of [sep]
    (what [strings.Index] finds), or [None] when [sep] does not occur. *)
Fixpoint Cut (s sep : string) : option (string * string) :=
  match CutPrefix s sep with
  | Some after => Some (EmptyString, after)
  | None =>
      match s with
      | EmptyString => None
      | String c s' =>
          match Cut s' sep with
          | Some (before, after) => Some (String c before, after)
          | None => None
          end
      end
  end.

(** [strings.SplitN(s, sep, n)] for a non-empty [sep] and [n >= 0]: at most
    [n] pieces, the last one the unsplit remainder. *)
Fixpoint SplitN (s sep : string) (n : nat) : list string :=
  match n with
  | 0 => []
  | 1 => [s]
  | S n' =>
      match Cut s sep with
      | Some (before, after) => before :: SplitN after sep n'
      | None => [s]
      end
  end.

(** [strings.Split(s, sep)] for a one-byte separator. *)
Fixpoint Split1 (s : string) (sep : ascii) : list string :=
  match s with
  | EmptyString => [EmptyString]
  | String c s' =>
      if Ascii.eqb c sep then EmptyString :: Split1 s' sep
      else match Split1 s' sep with
           | piece :: rest => String c piece :: rest
           | [] => [String c EmptyString]
           end
  end.

(** [strings.Join]. *)
Fixpoint Join (elems : list string) (sep : string) : string :=
  match elems with
  | [] => EmptyString
  | [e] => e
  | e :: rest => e ++ sep ++ Join rest sep
  end.

End strings.

(** The lines of a document, and the front-matter sentinel: a line that
    holds three hyphens and nothing else. *)
Definition Lines (doc : string) : list string :=
  strings.Split1 doc (ascii_of_nat 10).

Definition delimiter : string := "---".

Definition delimiter_lines (doc : string) : nat :=
  count_occ string_dec (Lines doc) delimiter.

(** ** Errors

    Go's [error] values as the program can meet them: the two sentinels of
    [path/filepath], the [*fs.PathError] of a failed system call, the
    [*yaml.TypeError] of a block whose values do not fit the struct, and
    any other error value a library returns, given by its dynamic type and
    its [Error()] text. *)

Inductive Errno : Type := ENOENT | EACCES | ENOTDIR | EISDIR | EIO.

Inductive error : Type :=
| SkipDir
| SkipAll
| PathError (Op Path : string) (Err : Errno)
| TypeError (Errors : list string)
| LibError (typ msg : string).

Definition Errno_Error (e : Errno) : string :=
  match e with
  | ENOENT => "no such file or directory"
  | EACCES => "permission denied"
  | ENOTDIR => "not a directory"
  | EISDIR => "is a directory"
  | EIO => "input/output error"
  end.

(** [err.Error()]. *)
Definition Error (e : error) : string :=
  match e with
  | SkipDir => "skip this directory"
  | SkipAll => "skip everything and stop the walk"
  | PathError op path err => op ++ " " ++ path ++ ": " ++ Errno_Error err
  | TypeError errs =>
      "yaml: unmarshal errors:" ++ strings.nl ++ "  " ++
      strings.Join errs (strings.nl ++ "  ")
  | LibError _ msg => msg
  end.

(** [reflect.TypeOf(err).String()]. *)
Definition TypeOf (e : error) : string :=
  match e with
  | SkipDir | SkipAll => "*errors.errorString"
  | PathError _ _ _ => "*fs.PathError"
  | TypeError _ => "*yaml.TypeError"
  | LibError typ _ => typ
  end.

Definition is_SkipDir (e : error) : bool :=
  match e with SkipDir => true | _ => false end.

Definition is_SkipAll (e : error) : bool :=
  match e with SkipAll => true | _ => false end.

(** ** The file system

    A tree, seen from the working directory of the process.  A regular file
    holds the errno that opening it raises, if any, and its bytes or the
    errno that reading it raises; a directory holds its entries in the order
    [readDirNames] returns them (sorted by name), and the errno that listing
    it raises, if any; the third kind of node is an entry whose [lstat]
    fails.  Symbolic links are not modelled. *)

#[local] Set Warnings "-register-all".

Inductive Node : Type :=
| RegularFile (denied : option Errno) (data : Errno + string)
| Directory (unlistable : option Errno) (entries : list (string * Node))
| Unstatable (err : Errno).

Definition is_directory (n : Node) : bool :=
  match n with Directory _ _ => true | _ => false end.

Fixpoint lookup_entry (name : string) (entries : list (string * Node)) : option Node :=
  match entries with
  | [] => None
  | (k, n) :: rest => if String.eqb k name then Some n else lookup_entry name rest
  end.

(** Path resolution as the kernel does it, one component at a time:
    [above] is the chain of directories from the current one up to the
    working directory, nearest first. *)
Fixpoint resolve (above : list Node) (cur : Node) (components : list string)
  : Errno + Node :=
  match components with
  | [] => inr cur
  | c :: rest =>
      match cur with
      | Directory _ entries =>
          if String.eqb c "" || String.eqb c "." then resolve above cur rest
          else if String.eqb c ".." then
            match above with
            | [] => resolve [] cur rest
            | parent :: above' => resolve above' parent rest
            end
          else
            match lookup_entry c entries with
            | Some child => resolve (cur :: above) child rest
            | None => inl ENOENT
            end
      | RegularFile _ _ => inl ENOTDIR
      | Unstatable err => inl err
      end
  end.

Definition namei (cwd : Node) (path : string) : Errno + Node :=
  resolve [] cwd (strings.Split1 path "/"%char).

(** ** The trace of calls that leave the program *)

(** A [goldmark.Markdown] value is what [goldmark.New] was given. *)
Inductive Extension : Type :=
| GFM
| Highlighting (style : string).

Record Markdown : Type := New {
  AutoHeadingID : bool;
  Extensions : list Extension
}.

Inductive Event : Type :=
| os_Open (name : string)
| io_ReadAll (name : string)
| os_ReadFile (name : string)
| filepath_Walk (root : string)
| yaml_Unmarshal (block : string)
| frontmatter_Parse (doc : string)
| Markdown_Convert (md : Markdown) (source : string).

(** A computation returns its value and the calls it made, oldest first. *)
Definition M (A : Type) : Type := (A * list Event)%type.

Definition ret {A : Type} (a : A) : M A := (a, []).

Definition bind {A B : Type} (m : M A) (f : A -> M B) : M B :=
  let (a, t1) := m in
  let (b, t2) := f a in
  (b, (t1 ++ t2)%list).

Definition call {A : Type} (e : Event) (a : A) : M A := (a, [e]).

Definition value {A : Type} (m : M A) : A := fst m.
Definition trace {A : Type} (m : M A) : list Event := snd m.

Declare Scope go_scope.
Delimit Scope go_scope with go.
Notation "x <- m ;; k" := (bind m (fun x => k))
  (at level 61, m at next level, right associativity) : go_scope.
Notation "' p <- m ;; k" := (bind m (fun p => k))
  (at level 61, p pattern, m at next level, right associativity) : go_scope.
Open Scope go_scope.

(** ** Package [os] and [io] over the tree *)

Module os.

(** An open [*os.File]: the name it was opened under and its node. *)
Record File : Type := { Name : string; node : Node }.

Definition open (cwd : Node) (name : string) : File * option error :=
  let failed errno :=
    ({| Name := name; node := Unstatable errno |},
     Some (PathError "open" name errno)) in
  match namei cwd name with
  | inl errno => failed errno
  | inr (RegularFile (Some errno) _) => failed errno
  | inr (Unstatable errno) => failed errno
  | inr n => ({| Name := name; node := n |}, None)
  end.

(** What reading an open file to its end gives. *)
Definition read (f : File) : string * option error :=
  match node f with
  | RegularFile _ (inr data) => (data, None)
  | RegularFile _ (inl errno) => ("", Some (PathError "read" (Name f) errno))
  | Directory _ _ => ("", Some (PathError "read" (Name f) EISDIR))
  | Unstatable errno => ("", Some (PathError "read" (Name f) errno))
  end.

(** [os.Open(name)]. *)
Definition Open (cwd : Node) (name : string) : M (File * option error) :=
  call (os_Open name) (open cwd name).

(** [os.ReadFile(name)]: open, read to the end, close. *)
Definition ReadFile (cwd : Node) (name : string) : M (string * option error) :=
  call (os_ReadFile name)
    (let (f, err) := open cwd name in
     match err with
     | Some e => ("", Some e)
     | None => read f
     end).

End os.

Module io.

(** [io.ReadAll(r)] for [r] an open file. *)
Definition ReadAll (r : os.File) : M (string * option error) :=
  call (io_ReadAll (os.Name r)) (os.read r).

End io.

(** ** [SlugRender] and [FileReader] (the same in both files) *)

(** [type SlugRender interface { Read(slug string) (string, error) }];
    the file system the reader works on is passed to it. *)
Class SlugRender (T : Type) : Type := {
  Read : T -> Node -> string -> M (string * option error)
}.

(** [type FileReader struct{}] and its one value, [FileReader{}]. *)
Inductive FileReader : Type := FileReader_lit.

Definition FileReader_Read (fRead : FileReader) (cwd : Node) (slug : string)
  : M (string * option error) :=
  '(fr, err) <- os.Open cwd ("markdown/" ++ slug ++ ".md") ;;
  match err with
  | Some e => ret ("", Some e)
  | None =>
      '(b, err) <- io.ReadAll fr ;;
      match err with
      | Some e => ret ("", Some e)
      | None => ret (b, None)
      end
  end.

#[export] Instance FileReader_SlugRender : SlugRender FileReader :=
  {| Read := FileReader_Read |}.

(** ** Package [path/filepath] *)

Module filepath.

(** [filepath.Clean] on a slash-separated path: empty and "." elements are
    dropped, an inner ".." removes the element before it, a ".." at the
    start of a rooted path is dropped, and an empty result is ".". *)
Fixpoint clean (rooted : bool) (kept : list string) (components : list string)
  : list string :=
  match components with
  | [] => rev kept
  | c :: rest =>
      if String.eqb c "" || String.eqb c "." then clean rooted kept rest
      else if String.eqb c ".." then
        match kept with
        | k :: kept' =>
            if String.eqb k ".." then clean rooted (c :: kept) rest
            else clean rooted kept' rest
        | [] => if rooted then clean rooted [] rest else clean rooted [c] rest
        end
      else clean rooted (c :: kept) rest
  end.

Definition Clean (path : string) : string :=
  let rooted := strings.HasPrefix path "/" in
  let out := strings.Join (clean rooted [] (strings.Split1 path "/"%char)) "/" in
  if rooted then "/" ++ out
  else if String.eqb out "" then "." else out.

(** [filepath.Join(dir, name)]. *)
Definition Join (dir name : string) : string :=
  if negb (String.eqb dir "") then Clean (dir ++ "/" ++ name)
  else if negb (String.eqb name "") then Clean name
  else "".

(** The name [os.Lstat] reports for a path: its last element. *)
Definition basename (path : string) : string :=
  last (filter (fun c => negb (String.eqb c ""))
          (strings.Split1 path "/"%char)) path.

(** [fs.FileInfo], as far as the program looks at it. *)
Record FileInfo : Type := { Name : string; IsDir : bool }.

(** [filepath.WalkFunc]; [A] is the state of the variables the closure
    captures, passed in and out. *)
Definition WalkFunc (A : Type) : Type :=
  string -> option FileInfo -> option error -> A -> M (A * option error).

(** [walk], the recursive descent of [filepath.Walk]. *)
Fixpoint walk {A : Type} (path : string) (info : FileInfo) (n : Node)
  (walkFn : WalkFunc A) (acc : A) {struct n} : M (A * option error) :=
  match n with
  | Directory unlistable entries =>
      let err := option_map (PathError "open" path) unlistable in
      '(acc, err1) <- walkFn path (Some info) err acc ;;
      match err, err1 with
      | None, None =>
          (fix names (entries : list (string * Node)) (acc : A)
             : M (A * option error) :=
             match entries with
             | [] => ret (acc, None)
             | (name, child) :: rest =>
                 let filename := Join path name in
                 match child with
                 | Unstatable errno =>
                     '(acc, err) <- walkFn filename None
                                      (Some (PathError "lstat" filename errno)) acc ;;
                     match err with
                     | Some e =>
                         if negb (is_SkipDir e) then ret (acc, Some e)
                         else names rest acc
                     | None => names rest acc
                     end
                 | _ =>
                     let fileInfo := {| Name := name; IsDir := is_directory child |} in
                     '(acc, err) <- walk filename fileInfo child walkFn acc ;;
                     match err with
                     | Some e =>
                         if negb (IsDir fileInfo) || negb (is_SkipDir e)
                         then ret (acc, Some e)
                         else names rest acc
                     | None => names rest acc
                     end
                 end
             end) entries acc
      | _, _ => ret (acc, err1)
      end
  | _ => walkFn path (Some info) None acc
  end.

(** [filepath.Walk(root, fn)]. *)
Definition Walk {A : Type} (cwd : Node) (root : string) (fn : WalkFunc A)
  (acc : A) : M (A * option error) :=
  _ <- call (filepath_Walk root) tt ;;
  '(acc, err) <-
    match namei cwd root with
    | inl errno => fn root None (Some (PathError "lstat" root errno)) acc
    | inr (Unstatable errno) =>
        fn root None (Some (PathError "lstat" root errno)) acc
    | inr n =>
        walk root {| Name := basename root; IsDir := is_directory n |} n fn acc
    end ;;
  match err with
  | Some e =>
      if is_SkipDir e || is_SkipAll e then ret (acc, None)
      else ret (acc, Some e)
  | None => ret (acc, None)
  end.

End filepath.

(** ** The libraries

    What the libraries do with text is left to three functions: the YAML
    parser (text to a document tree), the front-matter reader of
    adrg/frontmatter (a document to its YAML block, if it has one, and the
    rest; front matter in the library's other formats is not modelled) and
    the goldmark converter (Markdown to the bytes it writes, and the error
    of the write, if any).  A failure is reported with the dynamic type and
    the text of the error value. *)

Record Failure : Type := { dyn_type : string; message : string }.

Definition raise (f : Failure) : error := LibError (dyn_type f) (message f).

Definition HTML : Type := string.

Module yaml.

(** A parsed document.  A scalar is kept with the type the parser resolved
    it to; integers and booleans keep their spelling.  Floats, timestamps,
    merge keys and keys that are not scalars are not modelled. *)
Inductive Value : Type :=
| Null
| Str (s : string)
| Int (text : string) (z : Z)
| Bool (text : string) (b : bool)
| Seq (items : list Value)
| Map (pairs : list (string * Value)).

(** The fields of a Go struct that [Unmarshal] can set, each under the key
    of its [yaml:"..."] tag (or its lower-cased name when it has none). *)
Inductive Field (P Q : Type) : Type :=
| StringField (set : string -> P -> P)
| IntField (set : Z -> P -> P)
| StructField (get : P -> Q) (set : Q -> P -> P).
Arguments StringField {P Q} set.
Arguments IntField {P Q} set.
Arguments StructField {P Q} get set.

(** A scalar decoded into a [string]: the scalar's text; [null] resets the
    field to its zero value. *)
Definition to_string (v : Value) : option string :=
  match v with
  | Null => Some ""
  | Str s => Some s
  | Int text _ => Some text
  | Bool text _ => Some text
  | Seq _ | Map _ => None
  end.

(** A scalar decoded into an [int] (64 bits). *)
Definition to_int (v : Value) : option Z :=
  match v with
  | Null => Some 0%Z
  | Int _ z =>
      if ((- 2 ^ 63 <=? z) && (z <? 2 ^ 63))%Z then Some z else None
  | _ => None
  end.

Fixpoint find {F : Type} (key : string) (fields : list (string * F)) : option F :=
  match fields with
  | [] => None
  | (k, f) :: rest => if String.eqb k key then Some f else find key rest
  end.

Section Decode.
Variables (P Q : Type).
Variable zeroQ : Q.
Variable inner : list (string * Field Q unit).
Variable fields : list (string * Field P Q).

(** One level of a struct without nested structs (here: [Author]). *)
Definition decode_leaf (key : string) (f : Field Q unit) (v : Value) (out : Q)
  : Q * list string :=
  match f with
  | StringField set =>
      match to_string v with
      | Some s => (set s out, [])
      | None => (out, [key])
      end
  | IntField set =>
      match to_int v with
      | Some z => (set z out, [])
      | None => (out, [key])
      end
  | StructField _ _ => (out, [key])
  end.

(** [mappingStruct]: the pairs in document order; a key no field is
    tagged with is skipped, a value that does not fit its field is
    recorded and the decoding goes on. *)
Fixpoint mapping_leaf (pairs : list (string * Value)) (out : Q)
  : Q * list string :=
  match pairs with
  | [] => (out, [])
  | (key, v) :: rest =>
      match find key inner with
      | Some f =>
          let (out, errs) := decode_leaf key f v out in
          let (out, errs') := mapping_leaf rest out in
          (out, (errs ++ errs')%list)
      | None => mapping_leaf rest out
      end
  end.

Definition decode_field (key : string) (f : Field P Q) (v : Value) (out : P)
  : P * list string :=
  match f with
  | StringField set =>
      match to_string v with
      | Some s => (set s out, [])
      | None => (out, [key])
      end
  | IntField set =>
      match to_int v with
      | Some z => (set z out, [])
      | None => (out, [key])
      end
  | StructField get set =>
      match v with
      | Null => (set zeroQ out, [])
      | Map pairs =>
          let (q, errs) := mapping_leaf pairs (get out) in
          (set q out, errs)
      | _ => (out, [key])
      end
  end.

Fixpoint mappingStruct (pairs : list (string * Value)) (out : P)
  : P * list string :=
  match pairs with
  | [] => (out, [])
  | (key, v) :: rest =>
      match find key fields with
      | Some f =>
          let (out, errs) := decode_field key f v out in
          let (out, errs') := mappingStruct rest out in
          (out, (errs ++ errs')%list)
      | None => mappingStruct rest out
      end
  end.

Variable zeroP : P.

(** A document decoded into the struct [out]. *)
Definition decode (doc : option Value) (out : P) : P * option error :=
  match doc with
  | None => (out, None)
  | Some Null => (zeroP, None)
  | Some (Map pairs) =>
      let (out, errs) := mappingStruct pairs out in
      (out, match errs with [] => None | _ => Some (TypeError errs) end)
  | Some _ => (out, Some (TypeError ["<document>"]))
  end.

End Decode.

End yaml.

Class Libs : Type := {
  yaml_parse : string -> Failure + option yaml.Value;
  frontmatter_read : string -> Failure + (option string * string);
  goldmark_render : Markdown -> string -> string * option Failure
}.

(** What the two versions of [PostData] have in common: a zero value, the
    struct's YAML keys, and the [Content] field. *)
Class Schema (PostData Author : Type) : Type := {
  zero_PostData : PostData;
  zero_Author : Author;
  Author_fields : list (string * yaml.Field Author unit);
  PostData_fields : list (string * yaml.Field PostData Author);
  get_Content : PostData -> HTML;
  with_Content : HTML -> PostData -> PostData;
  get_with_Content : forall html post, get_Content (with_Content html post) = html
}.

Section Library_calls.
Context {L : Libs} {PostData Author : Type} {schema : Schema PostData Author}.

Definition unmarshal (block : string) (out : PostData) : PostData * option error :=
  match yaml_parse block with
  | inl f => (out, Some (raise f))
  | inr doc =>
      yaml.decode PostData Author zero_Author Author_fields PostData_fields
        zero_PostData doc out
  end.

(** [yaml.Unmarshal(in, &out)]. *)
Definition yaml_Unmarshal_ (block : string) (out : PostData)
  : M (PostData * option error) :=
  call (yaml_Unmarshal block) (unmarshal block out).

(** [frontmatter.Parse(strings.NewReader(doc), &out)]: the rest of the
    document, once the block (if there is one) is decoded into [out]. *)
Definition frontmatter_Parse_ (doc : string) (out : PostData)
  : M (PostData * string * option error) :=
  call (frontmatter_Parse doc)
    match frontmatter_read doc with
    | inl f => (out, "", Some (raise f))
    | inr (None, rest) => (out, rest, None)
    | inr (Some block, rest) =>
        match unmarshal block out with
        | (out, Some e) => (out, "", Some e)
        | (out, None) => (out, rest, None)
        end
    end.

(** [md.Convert(source, &buf)]: what the converter writes is appended to
    the buffer. *)
Definition Convert (md : Markdown) (source : string) (buf : string)
  : M (string * option error) :=
  call (Markdown_Convert md source)
    (let (written, failure) := goldmark_render md source in
     ((buf ++ written)%string, option_map raise failure)).

End Library_calls.

(** ** Packages [fmt], [net/http] and gin's [Context] *)

Module fmt.

(** [fmt.Sprintf(format, a...)] for a [format] without verbs, which is what
    every format of the program is: the arguments, finding no verb, are
    reported after the text as [%!(EXTRA type=value, ...)]. *)
Definition Sprintf (format : string) (a : list error) : string :=
  match a with
  | [] => format
  | _ =>
      format ++ "%!(EXTRA " ++
      strings.Join (map (fun v => TypeOf v ++ "=" ++ Error v) a) ", " ++ ")"
  end.

End fmt.

Module http.
Definition StatusOK : Z := 200.
Definition StatusNotFound : Z := 404.
Definition StatusInternalServerError : Z := 500.
End http.

Module gin.

(** What a handler leaves in its [*gin.Context]: a plain-text body, or a
    named template and the object it is executed on. *)
Inductive Response (P : Type) : Type :=
| PlainText (code : Z) (body : string)
| Template (code : Z) (name : string) (obj : P).
Arguments PlainText {P} code body.
Arguments Template {P} code name obj.

(** [c.String(code, format, values...)]: the format is written as it is
    when there are no values, and through [fmt.Fprintf] otherwise. *)
Definition String_ {P : Type} (code : Z) (format : string) (values : list error)
  : Response P :=
  match values with
  | [] => PlainText code format
  | _ => PlainText code (fmt.Sprintf format values)
  end.

(** [c.HTML(code, name, obj)]. *)
Definition HTML_ {P : Type} (code : Z) (name : string) (obj : P) : Response P :=
  Template code name obj.

Definition status {P : Type} (r : Response P) : Z :=
  match r with PlainText code _ => code | Template code _ _ => code end.

(** The object handed to the template renderer, if any. *)
Definition rendered {P : Type} (r : Response P) : option P :=
  match r with PlainText _ _ => None | Template _ _ obj => Some obj end.

End gin.

(** ** [loadMarkdownPosts] (the same in both files) *)

Section Listing.
Context {L : Libs} {PostData Author : Type} {schema : Schema PostData Author}.

(** The function literal handed to [filepath.Walk]; [posts] is the slice it
    captures, [md] the converter. *)
Definition walkFn (cwd : Node) (md : Markdown) : filepath.WalkFunc (list PostData) :=
  fun path info err posts =>
    match err with
    | Some e => ret (posts, Some e)
    | None =>
        match info with
        | None =>
            (* [info.IsDir()] on a nil [info]: Walk never passes one
               together with a nil [err]. *)
            ret (posts, Some (LibError "runtime.Error"
                                "invalid memory address or nil pointer dereference"))
        | Some info =>
            if negb (filepath.IsDir info)
               && strings.HasSuffix (filepath.Name info) ".md"
            then
              '(content, err) <- os.ReadFile cwd path ;;
              match err with
              | Some e => ret (posts, Some e)
              | None =>
                  let postData := zero_PostData in
                  let buf := "" in
                  let split := strings.SplitN content
                                 (strings.nl ++ "---" ++ strings.nl) 2 in
                  if (1 <? length split)%nat then
                    '(postData, err) <- yaml_Unmarshal_ (nth 0 split "") postData ;;
                    match err with
                    | Some e => ret (posts, Some e)
                    | None =>
                        '(buf, err) <- Convert md (nth 1 split "") buf ;;
                        match err with
                        | Some e => ret (posts, Some e)
                        | None =>
                            let postData := with_Content buf postData in
                            ret ((posts ++ [postData])%list, None)
                        end
                    end
                  else
                    '(buf, err) <- Convert md content buf ;;
                    match err with
                    | Some e => ret (posts, Some e)
                    | None =>
                        let postData := with_Content buf postData in
                        ret ((posts ++ [postData])%list, None)
                    end
              end
            else ret (posts, None)
        end
    end.

Definition loadMarkdownPosts (cwd : Node) (dir : string)
  : M (list PostData * option error) :=
  let md := New false [] in
  let posts : list PostData := [] in
  '(posts, err) <- filepath.Walk cwd dir (walkFn cwd md) posts ;;
  match err with
  | Some e => ret ([], Some e)
  | None => ret (posts, None)
  end.

End Listing.

(** ** [Author] (the same in both files) *)

Record Author : Type := { Name : string; Email : string }.

Definition Author_zero : Author := {| Name := ""; Email := "" |}.

Definition Author_yaml : list (string * yaml.Field Author unit) :=
  [ ("name", yaml.StringField (fun v a => {| Name := v; Email := Email a |}));
    ("email", yaml.StringField (fun v a => {| Name := Name a; Email := v |})) ].

(** ** [server.go] *)

Module Server.

(** [type PostData struct]; the field [Author_] is Go's [Author Author]. *)
Record PostData : Type := {
  Title : string;
  Slug : string;
  Description : string;
  Order : Z;
  MetaDescription : string;
  MetaPropertyTitle : string;
  MetaPropertyDescription : string;
  MetaOgURL : string;
  Author_ : Author;
  Content : HTML
}.

(** [var post PostData]. *)
Definition PostData_zero : PostData :=
  {| Title := "";
     Slug := "";
     Description := "";
     Order := 0%Z;
     MetaDescription := "";
     MetaPropertyTitle := "";
     MetaPropertyDescription := "";
     MetaOgURL := "";
     Author_ := Author_zero;
     Content := "" |}.

Definition set_Title (v : string) (p : PostData) : PostData :=
  {| Title := v;
     Slug := Slug p;
     Description := Description p;
     Order := Order p;
     MetaDescription := MetaDescription p;
     MetaPropertyTitle := MetaPropertyTitle p;
     MetaPropertyDescription := MetaPropertyDescription p;
     MetaOgURL := MetaOgURL p;
     Author_ := Author_ p;
     Content := Content p |}.

Definition set_Slug (v : string) (p : PostData) : PostData :=
  {| Title := Title p;
     Slug := v;
     Description := Description p;
     Order := Order p;
     MetaDescription := MetaDescription p;
     MetaPropertyTitle := MetaPropertyTitle p;
     MetaPropertyDescription := MetaPropertyDescription p;
     MetaOgURL := MetaOgURL p;
     Author_ := Author_ p;
     Content := Content p |}.

Definition set_Description (v : string) (p : PostData) : PostData :=
  {| Title := Title p;
     Slug := Slug p;
     Description := v;
     Order := Order p;
     MetaDescription := MetaDescription p;
     MetaPropertyTitle := MetaPropertyTitle p;
     MetaPropertyDescription := MetaPropertyDescription p;
     MetaOgURL := MetaOgURL p;
     Author_ := Author_ p;
     Content := Content p |}.

Definition set_Order (v : Z) (p : PostData) : PostData :=
  {| Title := Title p;
     Slug := Slug p;
     Description := Description p;
     Order := v;
     MetaDescription := MetaDescription p;
     MetaPropertyTitle := MetaPropertyTitle p;
     MetaPropertyDescription := MetaPropertyDescription p;
     MetaOgURL := MetaOgURL p;
     Author_ := Author_ p;
     Content := Content p |}.

Definition set_MetaDescription (v : string) (p : PostData) : PostData :=
  {| Title := Title p;
     Slug := Slug p;
     Description := Description p;
     Order := Order p;
     MetaDescription := v;
     MetaPropertyTitle := MetaPropertyTitle p;
     MetaPropertyDescription := MetaPropertyDescription p;
     MetaOgURL := MetaOgURL p;
     Author_ := Author_ p;
     Content := Content p |}.

Definition set_MetaPropertyTitle (v : string) (p : PostData) : PostData :=
  {| Title := Title p;
     Slug := Slug p;
     Description := Description p;
     Order := Order p;
     MetaDescription := MetaDescription p;
     MetaPropertyTitle := v;
     MetaPropertyDescription := MetaPropertyDescription p;
     MetaOgURL := MetaOgURL p;
     Author_ := Author_ p;
     Content := Content p |}.

Definition set_MetaPropertyDescription (v : string) (p : PostData) : PostData :=
  {| Title := Title p;
     Slug := Slug p;
     Description := Description p;
     Order := Order p;
     MetaDescription := MetaDescription p;
     MetaPropertyTitle := MetaPropertyTitle p;
     MetaPropertyDescription := v;
     MetaOgURL := MetaOgURL p;
     Author_ := Author_ p;
     Content := Content p |}.

Definition set_MetaOgURL (v : string) (p : PostData) : PostData :=
  {| Title := Title p;
     Slug := Slug p;
     Description := Description p;
     Order := Order p;
     MetaDescription := MetaDescription p;
     MetaPropertyTitle := MetaPropertyTitle p;
     MetaPropertyDescription := MetaPropertyDescription p;
     MetaOgURL := v;
     Author_ := Author_ p;
     Content := Content p |}.

Definition set_Author (v : Author) (p : PostData) : PostData :=
  {| Title := Title p;
     Slug := Slug p;
     Description := Description p;
     Order := Order p;
     MetaDescription := MetaDescription p;
     MetaPropertyTitle := MetaPropertyTitle p;
     MetaPropertyDescription := MetaPropertyDescription p;
     MetaOgURL := MetaOgURL p;
     Author_ := v;
     Content := Content p |}.

Definition set_Content (v : HTML) (p : PostData) : PostData :=
  {| Title := Title p;
     Slug := Slug p;
     Description := Description p;
     Order := Order p;
     MetaDescription := MetaDescription p;
     MetaPropertyTitle := MetaPropertyTitle p;
     MetaPropertyDescription := MetaPropertyDescription p;
     MetaOgURL := MetaOgURL p;
     Author_ := Author_ p;
     Content := v |}.

(** The keys of the struct: the [yaml] tags, and the lower-cased name of
    the one field that has no tag. *)
Definition PostData_yaml : list (string * yaml.Field PostData Author) :=
  [ ("Title", yaml.StringField set_Title);
    ("Slug", yaml.StringField set_Slug);
    ("Description", yaml.StringField set_Description);
    ("Order", yaml.IntField set_Order);
    ("MetaDescription", yaml.StringField set_MetaDescription);
    ("MetaPropertyTitle", yaml.StringField set_MetaPropertyTitle);
    ("MetaPropertyDescription", yaml.StringField set_MetaPropertyDescription);
    ("MetaOgURL", yaml.StringField set_MetaOgURL);
    ("author", yaml.StructField Author_ set_Author);
    ("content", yaml.StringField set_Content) ].

#[global] Instance PostData_Schema : Schema PostData Author := {|
  zero_PostData := PostData_zero;
  zero_Author := Author_zero;
  Author_fields := Author_yaml;
  PostData_fields := PostData_yaml;
  get_Content := Content;
  with_Content := set_Content;
  get_with_Content := fun _ _ => eq_refl
|}.

Section Handlers.
Context {L : Libs} {T : Type} {reader : SlugRender T}.

Definition readAndParse (sl : T) (cwd : Node) (slug : string)
  : M (PostData * string * option error) :=
  let post := PostData_zero in
  '(postMarkdown, err) <- Read sl cwd slug ;;
  match err with
  | Some e => ret (post, "", Some e)
  | None =>
      '(post, remainingMd, err) <- frontmatter_Parse_ postMarkdown post ;;
      match err with
      | Some e => ret (post, "", Some e)
      | None => ret (post, remainingMd, None)
      end
  end.

Definition renderMarkdown (mdRenderer : Markdown) (markdown : string)
  : M (HTML * option error) :=
  let buf := "" in
  '(buf, err) <- Convert mdRenderer markdown buf ;;
  match err with
  | Some e => ret ("", Some e)
  | None => ret (buf, None)
  end.

(** [mdToHTML(md)]: [log.Fatal(err)] ends the process (left), so the
    [return nil] after it is never reached. *)
Definition mdToHTML (md : string) : M (error + string) :=
  let mdParser := New true [GFM] in
  let buf := "" in
  '(buf, err) <- Convert mdParser md buf ;;
  match err with
  | Some e => ret (inl e)
  | None => ret (inr buf)
  end.

(** [PostHandler(sl)]: the handler of [GET /posts/:slug]; its argument
    [slug] is [c.Param("slug")]. *)
Definition PostHandler (sl : T) : Node -> string -> M (gin.Response PostData) :=
  let mdRenderer := New false [GFM; Highlighting "dracula"] in
  fun cwd slug =>
    '(post, remainingMd, err) <- readAndParse sl cwd slug ;;
    match err with
    | Some _ => ret (gin.String_ http.StatusNotFound "Post not found" [])
    | None =>
        '(content, err) <- renderMarkdown mdRenderer remainingMd ;;
        let post := set_Content content post in
        match err with
        | Some _ =>
            ret (gin.String_ http.StatusInternalServerError
                   "Error rendering markdown" [])
        | None => ret (gin.HTML_ http.StatusOK "post.html" post)
        end
    end.

(** The handler of [GET /]: [log.Fatal(err)] ends the process (left),
    otherwise the listing goes to the template. *)
Definition index (cwd : Node) : M (error + gin.Response (list PostData)) :=
  '(posts, err) <- loadMarkdownPosts cwd "./markdown" ;;
  match err with
  | Some e => ret (inl e)
  | None => ret (inr (gin.HTML_ http.StatusOK "index.html" posts))
  end.

End Handlers.

End Server.

(** ** The second [package main] file *)

Module Part000.

(** [type PostData struct]; the field [Author_] is Go's [Author Author]. *)
Record PostData : Type := {
  Title : string;
  Slug : string;
  Date : string;
  Description : string;
  Order : Z;
  MetaDescription : string;
  MetaPropertyTitle : string;
  MetaPropertyDescription : string;
  MetaOgURL : string;
  Author_ : Author;
  Content : HTML
}.

(** [var post PostData]. *)
Definition PostData_zero : PostData :=
  {| Title := "";
     Slug := "";
     Date := "";
     Description := "";
     Order := 0%Z;
     MetaDescription := "";
     MetaPropertyTitle := "";
     MetaPropertyDescription := "";
     MetaOgURL := "";
     Author_ := Author_zero;
     Content := "" |}.

Definition set_Title (v : string) (p : PostData) : PostData :=
  {| Title := v;
     Slug := Slug p;
     Date := Date p;
     Description := Description p;
     Order := Order p;
     MetaDescription := MetaDescription p;
     MetaPropertyTitle := MetaPropertyTitle p;
     MetaPropertyDescription := MetaPropertyDescription p;
     MetaOgURL := MetaOgURL p;
     Author_ := Author_ p;
     Content := Content p |}.

Definition set_Slug (v : string) (p : PostData) : PostData :=
  {| Title := Title p;
     Slug := v;
     Date := Date p;
     Description := Description p;
     Order := Order p;
     MetaDescription := MetaDescription p;
     MetaPropertyTitle := MetaPropertyTitle p;
     MetaPropertyDescription := MetaPropertyDescription p;
     MetaOgURL := MetaOgURL p;
     Author_ := Author_ p;
     Content := Content p |}.

Definition set_Date (v : string) (p : PostData) : PostData :=
  {| Title := Title p;
     Slug := Slug p;
     Date := v;
     Description := Description p;
     Order := Order p;
     MetaDescription := MetaDescription p;
     MetaPropertyTitle := MetaPropertyTitle p;
     MetaPropertyDescription := MetaPropertyDescription p;
     MetaOgURL := MetaOgURL p;
     Author_ := Author_ p;
     Content := Content p |}.

Definition set_Description (v : string) (p : PostData) : PostData :=
  {| Title := Title p;
     Slug := Slug p;
     Date := Date p;
     Description := v;
     Order := Order p;
     MetaDescription := MetaDescription p;
     MetaPropertyTitle := MetaPropertyTitle p;
     MetaPropertyDescription := MetaPropertyDescription p;
     MetaOgURL := MetaOgURL p;
     Author_ := Author_ p;
     Content := Content p |}.

Definition set_Order (v : Z) (p : PostData) : PostData :=
  {| Title := Title p;
     Slug := Slug p;
     Date := Date p;
     Description := Description p;
     Order := v;
     MetaDescription := MetaDescription p;
     MetaPropertyTitle := MetaPropertyTitle p;
     MetaPropertyDescription := MetaPropertyDescription p;
     MetaOgURL := MetaOgURL p;
     Author_ := Author_ p;
     Content := Content p |}.

Definition set_MetaDescription (v : string) (p : PostData) : PostData :=
  {| Title := Title p;
     Slug := Slug p;
     Date := Date p;
     Description := Description p;
     Order := Order p;
     MetaDescription := v;
     MetaPropertyTitle := MetaPropertyTitle p;
     MetaPropertyDescription := MetaPropertyDescription p;
     MetaOgURL := MetaOgURL p;
     Author_ := Author_ p;
     Content := Content p |}.

Definition set_MetaPropertyTitle (v : string) (p : PostData) : PostData :=
  {| Title := Title p;
     Slug := Slug p;
     Date := Date p;
     Description := Description p;
     Order := Order p;
     MetaDescription := MetaDescription p;
     MetaPropertyTitle := v;
     MetaPropertyDescription := MetaPropertyDescription p;
     MetaOgURL := MetaOgURL p;
     Author_ := Author_ p;
     Content := Content p |}.

Definition set_MetaPropertyDescription (v : string) (p : PostData) : PostData :=
  {| Title := Title p;
     Slug := Slug p;
     Date := Date p;
     Description := Description p;
     Order := Order p;
     MetaDescription := MetaDescription p;
     MetaPropertyTitle := MetaPropertyTitle p;
     MetaPropertyDescription := v;
     MetaOgURL := MetaOgURL p;
     Author_ := Author_ p;
     Content := Content p |}.

Definition set_MetaOgURL (v : string) (p : PostData) : PostData :=
  {| Title := Title p;
     Slug := Slug p;
     Date := Date p;
     Description := Description p;
     Order := Order p;
     MetaDescription := MetaDescription p;
     MetaPropertyTitle := MetaPropertyTitle p;
     MetaPropertyDescription := MetaPropertyDescription p;
     MetaOgURL := v;
     Author_ := Author_ p;
     Content := Content p |}.

Definition set_Author (v : Author) (p : PostData) : PostData :=
  {| Title := Title p;
     Slug := Slug p;
     Date := Date p;
     Description := Description p;
     Order := Order p;
     MetaDescription := MetaDescription p;
     MetaPropertyTitle := MetaPropertyTitle p;
     MetaPropertyDescription := MetaPropertyDescription p;
     MetaOgURL := MetaOgURL p;
     Author_ := v;
     Content := Content p |}.

Definition set_Content (v : HTML) (p : PostData) : PostData :=
  {| Title := Title p;
     Slug := Slug p;
     Date := Date p;
     Description := Description p;
     Order := Order p;
     MetaDescription := MetaDescription p;
     MetaPropertyTitle := MetaPropertyTitle p;
     MetaPropertyDescription := MetaPropertyDescription p;
     MetaOgURL := MetaOgURL p;
     Author_ := Author_ p;
     Content := v |}.

(** The keys of the struct: the [yaml] tags, and the lower-cased name of
    the one field that has no tag. *)
Definition PostData_yaml : list (string * yaml.Field PostData Author) :=
  [ ("Title", yaml.StringField set_Title);
    ("Slug", yaml.StringField set_Slug);
    ("Date", yaml.StringField set_Date);
    ("Description", yaml.StringField set_Description);
    ("Order", yaml.IntField set_Order);
    ("MetaDescription", yaml.StringField set_MetaDescription);
    ("MetaPropertyTitle", yaml.StringField set_MetaPropertyTitle);
    ("MetaPropertyDescription", yaml.StringField set_MetaPropertyDescription);
    ("MetaOgURL", yaml.StringField set_MetaOgURL);
    ("author", yaml.StructField Author_ set_Author);
    ("content", yaml.StringField set_Content) ].

#[global] Instance PostData_Schema : Schema PostData Author := {|
  zero_PostData := PostData_zero;
  zero_Author := Author_zero;
  Author_fields := Author_yaml;
  PostData_fields := PostData_yaml;
  get_Content := Content;
  with_Content := set_Content;
  get_with_Content := fun _ _ => eq_refl
|}.

Section Handlers.
Context {L : Libs} {T : Type} {reader : SlugRender T}.

(** [PostHandler(sl)]: the handler of [GET /posts/:slug]; its argument
    [slug] is [ctx.Param("slug")]. *)
Definition PostHandler (sl : T) : Node -> string -> M (gin.Response PostData) :=
  let mdRenderer := New false [GFM; Highlighting "dracula"] in
  fun cwd slug =>
    '(postMarkdown, err) <- Read sl cwd slug ;;
    match err with
    | Some e => ret (gin.String_ http.StatusNotFound "Post not found" [e])
    | None =>
        let post := PostData_zero in
        '(post, remainingMd, err) <- frontmatter_Parse_ postMarkdown post ;;
        match err with
        | Some e =>
            ret (gin.String_ http.StatusInternalServerError
                   "Error parsing frontmatter" [e])
        | None =>
            let buf := "" in
            '(buf, err) <- Convert mdRenderer remainingMd buf ;;
            match err with
            | Some _ =>
                ret (gin.String_ http.StatusInternalServerError
                       "Error rendering markdown" [])
            | None =>
                let post := set_Content buf post in
                ret (gin.HTML_ http.StatusOK "post.html" post)
            end
        end
    end.

(** The handler of [GET /]: [log.Fatal(err)] ends the process (left),
    otherwise the listing goes to the template. *)
Definition index (cwd : Node) : M (error + gin.Response (list PostData)) :=
  '(posts, err) <- loadMarkdownPosts cwd "./markdown" ;;
  match err with
  | Some e => ret (inl e)
  | None => ret (inr (gin.HTML_ http.StatusOK "index.html" posts))
  end.

End Handlers.

End Part000.

(** ** What the listing is meant to produce

    The entries [filepath.Walk] visits, in the order it visits them, each
    with the arguments the callback receives; this depends on the tree
    alone. *)

Definition Visit : Type := (string * option filepath.FileInfo * option error)%type.

Fixpoint visits (path : string) (info : filepath.FileInfo) (n : Node) : list Visit :=
  match n with
  | Directory unlistable entries =>
      (path, Some info, option_map (PathError "open" path) unlistable) ::
      match unlistable with
      | Some _ => []
      | None =>
          (fix below (entries : list (string * Node)) : list Visit :=
             match entries with
             | [] => []
             | (name, child) :: rest =>
                 let filename := filepath.Join path name in
                 (match child with
                  | Unstatable errno =>
                      [(filename, None, Some (PathError "lstat" filename errno))]
                  | _ =>
                      visits filename
                        {| filepath.Name := name;
                           filepath.IsDir := is_directory child |} child
                  end ++ below rest)%list
             end) entries
      end
  | _ => [(path, Some info, None)]
  end.

Definition root_visits (cwd : Node) (root : string) : list Visit :=
  match namei cwd root with
  | inl errno => [(root, None, Some (PathError "lstat" root errno))]
  | inr (Unstatable errno) => [(root, None, Some (PathError "lstat" root errno))]
  | inr n =>
      visits root {| filepath.Name := filepath.basename root;
                     filepath.IsDir := is_directory n |} n
  end.

(** A visited entry is a document when it is not a directory and its name
    ends in ".md". *)
Definition is_document (v : Visit) : bool :=
  match v with
  | (_, Some info, None) =>
      negb (filepath.IsDir info) && strings.HasSuffix (filepath.Name info) ".md"
  | _ => false
  end.

Definition visit_path (v : Visit) : string := fst (fst v).

(** The paths of the documents under [root], in walk order. *)
Definition documents (cwd : Node) (root : string) : list string :=
  map visit_path (filter is_document (root_visits cwd root)).

(** The callback over a list of visits: it stops at the first error. *)
Fixpoint run {A : Type} (fn : filepath.WalkFunc A) (vs : list Visit) (acc : A)
  : M (A * option error) :=
  match vs with
  | [] => ret (acc, None)
  | (path, info, err) :: rest =>
      '(acc, e) <- fn path info err acc ;;
      match e with
      | Some e => ret (acc, Some e)
      | None => run fn rest acc
      end
  end.

Section Assembly.
Context {L : Libs} {PostData Author : Type} {schema : Schema PostData Author}.

(** Listing assembly of one document: read, split at the first "\n---\n",
    decode the block, convert the body. *)
Definition assemble (cwd : Node) (md : Markdown) (path : string) : error + PostData :=
  match value (os.ReadFile cwd path) with
  | (_, Some e) => inl e
  | (content, None) =>
      match strings.Cut content (strings.nl ++ "---" ++ strings.nl) with
      | Some (block, body) =>
          match unmarshal block zero_PostData with
          | (_, Some e) => inl e
          | (postData, None) =>
              match goldmark_render md body with
              | (_, Some f) => inl (raise f)
              | (html, None) => inr (with_Content html postData)
              end
          end
      | None =>
          match goldmark_render md content with
          | (_, Some f) => inl (raise f)
          | (html, None) => inr (with_Content html zero_PostData)
          end
      end
  end.

(** What one visit adds to the listing: nothing, one post, or the error
    that ends the walk. *)
Definition visit_result (cwd : Node) (md : Markdown) (v : Visit)
  : error + option PostData :=
  match v with
  | (_, _, Some e) => inl e
  | (_, None, None) =>
      inl (LibError "runtime.Error"
             "invalid memory address or nil pointer dereference")
  | (path, Some _, None) =>
      if is_document v then
        match assemble cwd md path with
        | inl e => inl e
        | inr post => inr (Some post)
        end
      else inr None
  end.

(** All or nothing: the posts of every visit, or the first error. *)
Fixpoint collect (cwd : Node) (md : Markdown) (vs : list Visit)
  : error + list PostData :=
  match vs with
  | [] => inr []
  | v :: rest =>
      match visit_result cwd md v with
      | inl e => inl e
      | inr added =>
          match collect cwd md rest with
          | inl e => inl e
          | inr posts =>
              inr (match added with Some p => p :: posts | None => posts end)
          end
      end
  end.

End Assembly.

(** ** A small world to run the program in *)

Module Demo.

Definition digit (c : ascii) : option Z :=
  let n := nat_of_ascii c in
  if (48 <=? n)%nat && (n <=? 57)%nat then Some (Z.of_nat (n - 48)) else None.

Fixpoint number (acc : Z) (s : string) : option Z :=
  match s with
  | EmptyString => Some acc
  | String c s' =>
      match digit c with
      | Some d => number (10 * acc + d)%Z s'
      | None => None
      end
  end.

Definition scalar (text : string) : yaml.Value :=
  match text with
  | EmptyString => yaml.Null
  | _ =>
      match number 0 text with
      | Some z => yaml.Int text z
      | None => yaml.Str text
      end
  end.

(** A parser for blocks of [key: value] lines; any other line is a syntax
    error. *)
Fixpoint pairs (lines : list string) : Failure + list (string * yaml.Value) :=
  match lines with
  | [] => inr []
  | line :: rest =>
      if String.eqb line "" || String.eqb line "---" then pairs rest
      else
        match strings.Cut line ": " with
        | None =>
            inl {| dyn_type := "*errors.errorString";
                   message := "yaml: could not find expected ':'" |}
        | Some (key, text) =>
            match pairs rest with
            | inl f => inl f
            | inr ps => inr ((key, scalar text) :: ps)
            end
        end
  end.

Definition parse (block : string) : Failure + option yaml.Value :=
  match pairs (Lines block) with
  | inl f => inl f
  | inr [] => inr None
  | inr ps => inr (Some (yaml.Map ps))
  end.

(** Front matter between a leading "---" line and the next one. *)
Definition front (doc : string) : Failure + (option string * string) :=
  match strings.CutPrefix doc ("---" ++ strings.nl) with
  | None => inr (None, doc)
  | Some rest =>
      match strings.Cut rest (strings.nl ++ "---" ++ strings.nl) with
      | Some (block, body) => inr (Some block, body)
      | None => inr (Some rest, "")
      end
  end.

Fixpoint blank (s : string) : bool :=
  match s with
  | EmptyString => true
  | String c s' =>
      (Ascii.eqb c " " || Ascii.eqb c (ascii_of_nat 10)) && blank s'
  end.

(** A converter that writes nothing for blank input (as a CommonMark
    converter does) and a paragraph otherwise. *)
Definition paragraphs (md : Markdown) (source : string) : string * option Failure :=
  if blank source then ("", None)
  else ("<p>" ++ source ++ "</p>" ++ strings.nl, None).

Definition libs : Libs :=
  {| yaml_parse := parse; frontmatter_read := front; goldmark_render := paragraphs |}.

(** The same, with a converter whose writer fails. *)
Definition libs_broken_writer : Libs :=
  {| yaml_parse := parse;
     frontmatter_read := front;
     goldmark_render := fun _ _ =>
       ("", Some {| dyn_type := "*errors.errorString"; message := "short write" |}) |}.

Definition doc (lines : list string) : string := strings.Join lines strings.nl.

Definition cwd : Node :=
  Directory None
    [ ("markdown",
       Directory None
         [ ("a.md", RegularFile None
                      (inr (doc ["Title: A"; "Order: 2"; "---"; "# A"])));
           ("b.md", RegularFile None
                      (inr (doc ["---"; "Title: B"; "Order: 1"; "---"; "# B"])));
           ("drafts",
            Directory None
              [ ("c.md", RegularFile None (inr (doc ["# C"]))) ]);
           ("notes.txt", RegularFile None (inr "not a post")) ]);
      ("secret.md", RegularFile None (inr "top secret")) ].

(** A posts directory with one file. *)
Definition posts_dir (name content : string) : Node :=
  Directory None
    [ ("markdown", Directory None [ (name, RegularFile None (inr content)) ]) ].

(** One sentinel line, in the middle. *)
Definition one_delimiter : string := doc ["Title: T"; "---"; "Body"].

(** One sentinel line, the first: an opening delimiter that is never closed. *)
Definition opening_only : string := doc ["---"; "Title: T"; "Body"].

(** A block, and a body that is one space. *)
Definition blank_body : string := doc ["Title: Blank"; "---"; " "].

(** A block whose second line is no [key: value] pair. *)
Definition malformed : string := doc ["---"; "Title: T"; "oops"; "---"; "Body"].

(** A posts directory whose second document cannot be opened. *)
Definition cwd_denied : Node :=
  Directory None
    [ ("markdown",
       Directory None
         [ ("a.md", RegularFile None (inr (doc ["Title: A"; "---"; "# A"])));
           ("b.md", RegularFile (Some EACCES) (inr "# B"));
           ("c.md", RegularFile None (inr "# C")) ]) ].

End Demo.

(** ** Vocabulary of the statements *)

(** Induction over a tree and the entries of its directories. *)
Fixpoint Node_forall (P : Node -> Prop)
  (HF : forall denied data, P (RegularFile denied data))
  (HD : forall unlistable entries,
      Forall (fun e => P (snd e)) entries -> P (Directory unlistable entries))
  (HU : forall err, P (Unstatable err))
  (n : Node) {struct n} : P n :=
  match n with
  | RegularFile denied data => HF denied data
  | Directory unlistable entries =>
      HD unlistable entries
        ((fix all (l : list (string * Node)) : Forall (fun e => P (snd e)) l :=
            match l with
            | [] => Forall_nil _
            | e :: rest => Forall_cons e (Node_forall P HF HD HU (snd e)) (all rest)
            end) entries)
  | Unstatable err => HU err
  end.

(** An error that is neither of the two sentinels of [filepath]. *)
Definition genuine (e : error) : Prop :=
  is_SkipDir e = false /\ is_SkipAll e = false.

(** A visit whose error, if it has one, is genuine. *)
Definition genuine_visit (v : Visit) : Prop :=
  match snd v with Some e => genuine e | None => True end.

(** A callback that answers with a sentinel only when it is handed one. *)
Definition never_skips {A : Type} (fn : filepath.WalkFunc A) : Prop :=
  forall path info err acc e,
    genuine_visit (path, info, err) ->
    snd (value (fn path info err acc)) = Some e -> genuine e.

(** The body block of a document, as the listing takes it: the text after
    the first "\n---\n", or the whole text. *)
Definition body_block (content : string) : string :=
  match strings.Cut content (strings.nl ++ "---" ++ strings.nl) with
  | Some (_, body) => body
  | None => content
  end.

(** What a key's value leaves in a [string] field and in an [int] field of
    a fresh struct. *)
Definition text_at (key : string) (pairs : list (string * yaml.Value)) : string :=
  match yaml.find key pairs with
  | Some v => match yaml.to_string v with Some s => s | None => "" end
  | None => ""
  end.

Definition int_at (key : string) (pairs : list (string * yaml.Value)) : Z :=
  match yaml.find key pairs with
  | Some v => match yaml.to_int v with Some z => z | None => 0%Z end
  | None => 0%Z
  end.

Definition author_at (key : string) (pairs : list (string * yaml.Value)) : Author :=
  match yaml.find key pairs with
  | Some (yaml.Map inner) =>
      {| Name := text_at "name" inner; Email := text_at "email" inner |}
  | _ => Author_zero
  end.

(** The post a block with the given pairs decodes to in the second file. *)
Definition Part000_decoded (pairs : list (string * yaml.Value)) : Part000.PostData :=
  {| Part000.Title := text_at "Title" pairs;
     Part000.Slug := text_at "Slug" pairs;
     Part000.Date := text_at "Date" pairs;
     Part000.Description := text_at "Description" pairs;
     Part000.Order := int_at "Order" pairs;
     Part000.MetaDescription := text_at "MetaDescription" pairs;
     Part000.MetaPropertyTitle := text_at "MetaPropertyTitle" pairs;
     Part000.MetaPropertyDescription := text_at "MetaPropertyDescription" pairs;
     Part000.MetaOgURL := text_at "MetaOgURL" pairs;
     Part000.Author_ := author_at "author" pairs;
     Part000.Content := text_at "content" pairs |}.

(** The post a block with the given pairs decodes to in [server.go]. *)
Definition Server_decoded (pairs : list (string * yaml.Value)) : Server.PostData :=
  {| Server.Title := text_at "Title" pairs;
     Server.Slug := text_at "Slug" pairs;
     Server.Description := text_at "Description" pairs;
     Server.Order := int_at "Order" pairs;
     Server.MetaDescription := text_at "MetaDescription" pairs;
     Server.MetaPropertyTitle := text_at "MetaPropertyTitle" pairs;
     Server.MetaPropertyDescription := text_at "MetaPropertyDescription" pairs;
     Server.MetaOgURL := text_at "MetaOgURL" pairs;
     Server.Author_ := author_at "author" pairs;
     Server.Content := text_at "content" pairs |}.

(** A block in which no key stands twice, nor in its [author] mapping. *)
Definition unique_keys (pairs : list (string * yaml.Value)) : Prop :=
  NoDup (map fst pairs) /\
  forall inner, yaml.find "author" pairs = Some (yaml.Map inner) ->
                NoDup (map fst inner).

(** What a value leaves in a field that held [old]: a value that does not
    fit leaves the field as it was. *)
Definition string_at (v : yaml.Value) (old : string) : string :=
  match yaml.to_string v with Some s => s | None => old end.

Definition Z_at (v : yaml.Value) (old : Z) : Z :=
  match yaml.to_int v with Some z => z | None => old end.

Definition struct_at (v : yaml.Value) (old : Author) : Author :=
  match v with
  | yaml.Null => Author_zero
  | yaml.Map inner => fst (yaml.mapping_leaf Author Author_yaml inner old)
  | _ => old
  end.

(** The converter of the single-post handlers. *)
Definition rich : Markdown := New false [GFM; Highlighting "dracula"].

(** The paths a trace reads with [os.ReadFile], oldest first. *)
Fixpoint reads (t : list Event) : list string :=
  match t with
  | [] => []
  | os_ReadFile name :: t' => name :: reads t'
  | _ :: t' => reads t'
  end.

(** The calls the listing makes: the walk, [os.ReadFile], [yaml.Unmarshal]
    and [Convert] on the converter without extensions. *)
Definition listing_call (e : Event) : Prop :=
  match e with
  | filepath_Walk _ | os_ReadFile _ | yaml_Unmarshal _ => True
  | Markdown_Convert md _ => md = New false []
  | _ => False
  end.

(** [sep] occurs in [s]. *)
Definition occurs (sep s : string) : Prop :=
  exists before after, s = before ++ sep ++ after.

(** A post of [server.go] and a post of the second file that agree in every
    field [server.go] has. *)
Definition same_fields (p : Server.PostData) (q : Part000.PostData) : Prop :=
  Server.Title p = Part000.Title q /\
  Server.Slug p = Part000.Slug q /\
  Server.Description p = Part000.Description q /\
  Server.Order p = Part000.Order q /\
  Server.MetaDescription p = Part000.MetaDescription q /\
  Server.MetaPropertyTitle p = Part000.MetaPropertyTitle q /\
  Server.MetaPropertyDescription p = Part000.MetaPropertyDescription q /\
  Server.MetaOgURL p = Part000.MetaOgURL q /\
  Server.Author_ p = Part000.Author_ q /\
  Server.Content p = Part000.Content q.

(** One pair decoded into a struct: what [mappingStruct] does with it. *)
Definition decode_pair {P Q : Type} (zeroQ : Q)
  (inner : list (string * yaml.Field Q unit))
  (fields : list (string * yaml.Field P Q))
  (key : string) (v : yaml.Value) (out : P) : P * list string :=
  match yaml.find key fields with
  | Some f => yaml.decode_field P Q zeroQ inner key f v out
  | None => (out, [])
  end.

(** * Proofs *)

(** ** Strings *)

Lemma CutPrefix_Some (prefix s rest : string) :
  strings.CutPrefix s prefix = Some rest -> s = prefix ++ rest.
Proof.
  revert s; induction prefix as [|p prefix IH]; intros s H; simpl in *.
  - now inversion H.
  - destruct s as [|c s]; [discriminate|].
    destruct (Ascii.eqb c p) eqn:E; [|discriminate].
    apply Ascii.eqb_eq in E; subst c.
    now rewrite (IH _ H).
Qed.

Lemma CutPrefix_app (prefix rest : string) :
  strings.CutPrefix (prefix ++ rest) prefix = Some rest.
Proof.
  induction prefix as [|p prefix IH]; simpl; [reflexivity|].
  now rewrite Ascii.eqb_refl.
Qed.

Lemma Cut_Some (sep s before after : string) :
  strings.Cut s sep = Some (before, after) -> s = before ++ sep ++ after.
Proof.
  revert before; induction s as [|c s IH]; intros before H.
  - simpl in H. destruct (strings.CutPrefix "" sep) eqn:E; [|discriminate].
    inversion H; subst. now apply CutPrefix_Some in E.
  - cbn [strings.Cut] in H.
    destruct (strings.CutPrefix (String c s) sep) eqn:E.
    + inversion H; subst. now apply CutPrefix_Some in E.
    + destruct (strings.Cut s sep) as [[b a]|] eqn:E'; [|discriminate].
      inversion H; subst. simpl. now rewrite (IH _ eq_refl).
Qed.

Lemma Split1_nonempty (s : string) (sep : ascii) : strings.Split1 s sep <> [].
Proof.
  destruct s as [|c s]; simpl; [discriminate|].
  destruct (Ascii.eqb c sep); [discriminate|].
  destruct (strings.Split1 s sep); discriminate.
Qed.

(** Splitting at a separator splits the pieces. *)
Lemma Split1_app (a b : string) (sep : ascii) :
  strings.Split1 (a ++ String sep b) sep
  = (strings.Split1 a sep ++ strings.Split1 b sep)%list.
Proof.
  induction a as [|c a IH]; simpl.
  - now rewrite Ascii.eqb_refl.
  - destruct (Ascii.eqb c sep); rewrite IH; [reflexivity|].
    pose proof (Split1_nonempty a sep) as NE.
    destruct (strings.Split1 a sep); [contradiction|reflexivity].
Qed.

Lemma Split1_no_sep (s : string) (sep : ascii) :
  (forall a b, s <> a ++ String sep b) -> strings.Split1 s sep = [s].
Proof.
  induction s as [|c s IH]; intros H; simpl; [reflexivity|].
  destruct (Ascii.eqb c sep) eqn:E.
  - apply Ascii.eqb_eq in E; subst. exfalso. now apply (H "" s).
  - rewrite IH; [reflexivity|].
    intros a b ->. now apply (H (String c a) b).
Qed.

(** The lines of a document that was split at "\n---\n": the lines of the
    block, the sentinel, the lines of the body. *)
Lemma Lines_Cut (doc block body : string) :
  strings.Cut doc (strings.nl ++ "---" ++ strings.nl) = Some (block, body) ->
  Lines doc = (Lines block ++ delimiter :: Lines body)%list.
Proof.
  intros H. apply Cut_Some in H. subst doc. unfold Lines, strings.nl.
  change ((String (ascii_of_nat 10) "" ++ "---"
           ++ String (ascii_of_nat 10) "") ++ body)
    with (String (ascii_of_nat 10) ("---" ++ String (ascii_of_nat 10) body)).
  rewrite Split1_app. f_equal.
Qed.

(** ** The trace monad *)

Lemma bind_value {A B : Type} (m : M A) (f : A -> M B) :
  value (bind m f) = value (f (value m)).
Proof.
  destruct m as [a t]; unfold bind, value; simpl. now destruct (f a).
Qed.

Lemma bind_trace {A B : Type} (m : M A) (f : A -> M B) :
  trace (bind m f) = (trace m ++ trace (f (value m)))%list.
Proof.
  destruct m as [a t]; unfold bind, value, trace; simpl. now destruct (f a).
Qed.

Lemma bind_ext {A B : Type} (m : M A) (f g : A -> M B) :
  (forall a, f a = g a) -> bind m f = bind m g.
Proof. intros H. destruct m as [a t]; unfold bind. now rewrite H. Qed.

Lemma bind_assoc {A B C : Type} (m : M A) (f : A -> M B) (g : B -> M C) :
  bind (bind m f) g = bind m (fun a => bind (f a) g).
Proof.
  destruct m as [a t]; unfold bind.
  destruct (f a) as [b t2]. destruct (g b) as [c t3].
  now rewrite app_assoc.
Qed.

Lemma bind_ret_r {A : Type} (m : M A) : bind m ret = m.
Proof. destruct m as [a t]; unfold bind, ret. now rewrite app_nil_r. Qed.

(** ** The walk *)

Lemma bind_ext_value {A B : Type} (m : M A) (f g : A -> M B) :
  f (value m) = g (value m) -> bind m f = bind m g.
Proof. destruct m as [a t]; unfold bind, value; simpl. now intros ->. Qed.

Lemma run_app {A : Type} (fn : filepath.WalkFunc A) (vs1 vs2 : list Visit) (acc : A) :
  run fn (vs1 ++ vs2) acc
  = bind (run fn vs1 acc)
      (fun r => match snd r with
                | Some e => ret (fst r, Some e)
                | None => run fn vs2 (fst r)
                end).
Proof.
  revert acc; induction vs1 as [|[[path info] err] vs1 IH]; intros acc; simpl.
  - unfold bind, ret; simpl. now destruct (run fn vs2 acc).
  - rewrite bind_assoc. apply bind_ext. intros [acc' [e|]]; simpl.
    + reflexivity.
    + apply IH.
Qed.

Lemma run_never_skips {A : Type} (fn : filepath.WalkFunc A) :
  never_skips fn ->
  forall vs acc e,
    Forall genuine_visit vs ->
    snd (value (run fn vs acc)) = Some e -> genuine e.
Proof.
  intros NS vs; induction vs as [|[[path info] err] vs IH]; intros acc e G; simpl.
  - discriminate.
  - inversion G as [|? ? Gv Gvs]; subst.
    rewrite bind_value.
    destruct (value (fn path info err acc)) as [acc' [e'|]] eqn:E; simpl.
    + intros H; inversion H; subst. apply (NS path info err acc); [assumption|].
      now rewrite E.
    + now apply IH.
Qed.

Lemma visits_genuine (n : Node) :
  forall path info, Forall genuine_visit (visits path info n).
Proof.
  induction n as [denied data|unlistable entries IH|err] using Node_forall;
    intros path info; cbn [visits].
  - repeat constructor.
  - constructor.
    + unfold genuine_visit; simpl. destruct unlistable; simpl; [split|]; trivial.
    + destruct unlistable; [constructor|].
      induction entries as [|[name child] rest IHrest]; [constructor|].
      inversion IH as [|? ? Hc Hr]; subst. apply Forall_app. split.
      * destruct child; try apply Hc.
        repeat constructor.
      * now apply IHrest.
  - repeat constructor.
Qed.

Lemma root_visits_genuine (cwd : Node) (root : string) :
  Forall genuine_visit (root_visits cwd root).
Proof.
  unfold root_visits. destruct (namei cwd root) as [errno|[d x|u l|errno]];
    try apply visits_genuine; repeat constructor.
Qed.

(** [walk] hands the callback the visits of the tree, one after the other,
    until one of them fails. *)
Lemma walk_run {A : Type} (fn : filepath.WalkFunc A) :
  never_skips fn ->
  forall n path info acc,
    filepath.walk path info n fn acc = run fn (visits path info n) acc.
Proof.
  intros NS n.
  induction n as [denied data|unlistable entries IH|err] using Node_forall;
    intros path info acc.
  - simpl. unfold bind.
    destruct (fn path (Some info) None acc) as [[a [e|]] t]; unfold ret;
      now rewrite ?app_nil_r.
  - cbn [filepath.walk visits]. cbn [run]. apply bind_ext. intros [acc' err1].
    destruct unlistable as [errno|]; simpl.
    + now destruct err1.
    + destruct err1 as [e|]; [reflexivity|].
      clear acc. revert acc'.
      induction entries as [|[name child] rest IHrest]; intros acc.
      * reflexivity.
      * inversion IH as [|? ? Hc Hr]; subst. specialize (IHrest Hr). simpl in Hc.
        rewrite run_app.
        destruct child as [denied data|unl sub|errno].
        -- rewrite Hc. apply bind_ext. intros [acc' [e|]]; simpl.
           ++ reflexivity.
           ++ apply IHrest.
        -- rewrite Hc. apply bind_ext_value.
           destruct (value (run fn _ acc)) as [acc' [e|]] eqn:E; simpl.
           ++ assert (G : genuine e).
              { eapply (run_never_skips fn NS); [|rewrite E; reflexivity].
                apply visits_genuine. }
              destruct G as [-> _]. reflexivity.
           ++ apply IHrest.
        -- cbn [run app]. rewrite bind_assoc. apply bind_ext_value.
           destruct (value (fn _ None _ acc)) as [acc' [e|]] eqn:E; simpl.
           ++ assert (G : genuine e).
              { eapply NS; [|rewrite E; reflexivity]. repeat constructor. }
              destruct G as [-> _]. reflexivity.
           ++ unfold bind, ret; simpl. destruct (run fn _ acc') as [r t] eqn:E2.
              rewrite IHrest, E2. reflexivity.
  - simpl. unfold bind.
    destruct (fn path (Some info) None acc) as [[a [e|]] t]; unfold ret;
      now rewrite ?app_nil_r.
Qed.

Lemma Walk_run {A : Type} (fn : filepath.WalkFunc A) (cwd : Node) (root : string)
  (acc : A) :
  never_skips fn ->
  filepath.Walk cwd root fn acc
  = bind (call (filepath_Walk root) tt)
      (fun _ => run fn (root_visits cwd root) acc).
Proof.
  intros NS. unfold filepath.Walk. apply bind_ext. intros _.
  assert (tidy : forall m : M (A * option error),
             (forall e, snd (value m) = Some e -> genuine e) ->
             bind m (fun '(acc, err) =>
                       match err with
                       | Some e =>
                           if is_SkipDir e || is_SkipAll e then ret (acc, None)
                           else ret (acc, Some e)
                       | None => ret (acc, None)
                       end) = m).
  { intros [[a [e|]] t] G; unfold bind, ret; simpl.
    - destruct (G e eq_refl) as [-> ->]. simpl. now rewrite app_nil_r.
    - now rewrite app_nil_r. }
  assert (one : forall path info err,
             fn path info err acc = run fn [(path, info, err)] acc).
  { intros. simpl. unfold bind, ret.
    destruct (fn path info err acc) as [[a [e|]] t]; now rewrite app_nil_r. }
  unfold root_visits.
  destruct (namei cwd root) as [errno|[d x|u l|errno]];
    rewrite ?walk_run by assumption; rewrite ?one; apply tidy; intros e;
    apply (run_never_skips fn NS); try apply visits_genuine;
    repeat constructor.
Qed.

(** ** The callback of the listing *)

Section Listing_facts.
Context {L : Libs} {PostData Author : Type} {schema : Schema PostData Author}.

Lemma SplitN_2 (s sep : string) :
  strings.SplitN s sep 2
  = match strings.Cut s sep with
    | Some (before, after) => [before; after]
    | None => [s]
    end.
Proof. simpl. now destruct (strings.Cut s sep) as [[b a]|]. Qed.

(** The callback, visit by visit: the posts grow by what the visit adds, or
    the visit's error comes back. *)
Lemma walkFn_value (cwd : Node) (md : Markdown) (path : string)
  (info : option filepath.FileInfo) (err : option error) (posts : list PostData) :
  value (walkFn cwd md path info err posts)
  = match visit_result cwd md (path, info, err) with
    | inl e => (posts, Some e)
    | inr None => (posts, None)
    | inr (Some post) => ((posts ++ [post])%list, None)
    end.
Proof.
  unfold walkFn, visit_result, is_document.
  destruct info as [info|], err as [e|]; try reflexivity.
  destruct (negb (filepath.IsDir info)
            && strings.HasSuffix (filepath.Name info) ".md"); [|reflexivity].
  unfold assemble. rewrite bind_value.
  destruct (value (os.ReadFile cwd path)) as [content [e|]]; [reflexivity|].
  rewrite SplitN_2.
  destruct (strings.Cut content _) as [[block body]|]; simpl.
  - unfold yaml_Unmarshal_, call, bind, Convert, value; simpl.
    destruct (@unmarshal _ PostData _ _ block zero_PostData) as [postData [e|]]; [reflexivity|].
    simpl. destruct (goldmark_render md body) as [html [f|]]; reflexivity.
  - unfold call, bind, Convert, value; simpl.
    destruct (goldmark_render md content) as [html [f|]]; reflexivity.
Qed.

Lemma unmarshal_genuine (block : string) (out out' : PostData) (e : error) :
  unmarshal block out = (out', Some e) -> genuine e.
Proof.
  unfold unmarshal, yaml.decode.
  destruct (yaml_parse block) as [f|[[]|]]; simpl;
    try destruct (yaml.mappingStruct _ _ _ _ _ _ _) as [p [|]];
    intros H; inversion H; subst; split; reflexivity.
Qed.

Lemma assemble_genuine (cwd : Node) (md : Markdown) (path : string) (e : error) :
  assemble cwd md path = inl e -> genuine e.
Proof.
  unfold assemble, os.ReadFile, os.open, os.read, call, value; simpl.
  destruct (namei cwd path) as [errno|[[d|] [x|x]|u l|errno]]; simpl;
    try (intros H; inversion H; subst; split; reflexivity).
  all: destruct (strings.Cut _ _) as [[block body]|].
  all: try (destruct (@unmarshal _ PostData _ _ block zero_PostData)
              as [p [e'|]] eqn:U;
            [apply unmarshal_genuine in U; intros H; now inversion H; subst|]).
  all: match goal with
       | |- context [goldmark_render ?m ?s] =>
           destruct (goldmark_render m s) as [? [?|]]
       end.
  all: try discriminate.
  all: intros H; inversion H; subst; split; reflexivity.
Qed.

Lemma visit_result_genuine (cwd : Node) (md : Markdown) (v : Visit) (e : error) :
  genuine_visit v -> visit_result cwd md v = inl e -> genuine e.
Proof.
  destruct v as [[path info] err]. unfold genuine_visit, visit_result; simpl.
  destruct info as [info|], err as [e0|];
    try (intros G H; now inversion H; subst).
  intros _. destruct (negb _ && _); [|discriminate].
    destruct (assemble cwd md path) as [e'|p] eqn:E; [|discriminate].
    intros H; inversion H; subst. eapply assemble_genuine; eassumption.
Qed.

Lemma walkFn_never_skips (cwd : Node) (md : Markdown) :
  never_skips (walkFn cwd md).
Proof.
  intros path info err acc e G. rewrite walkFn_value.
  destruct (visit_result cwd md (path, info, err)) as [e'|[p|]] eqn:E; simpl;
    try discriminate.
  intros H; inversion H; subst. eapply visit_result_genuine; eassumption.
Qed.

(** The callback over a list of visits collects the posts, or ends with
    the first error. *)
Lemma run_walkFn (cwd : Node) (md : Markdown) (vs : list Visit) :
  forall posts,
    match collect cwd md vs with
    | inl e => snd (value (run (walkFn cwd md) vs posts)) = Some e
    | inr added => value (run (walkFn cwd md) vs posts) = ((posts ++ added)%list, None)
    end.
Proof.
  induction vs as [|[[path info] err] vs IH]; intros posts; cbn [collect run].
  - simpl. now rewrite app_nil_r.
  - rewrite bind_value, walkFn_value.
    destruct (visit_result cwd md (path, info, err)) as [e|[p|]]; simpl.
    + reflexivity.
    + specialize (IH (posts ++ [p])%list).
      destruct (collect cwd md vs) as [e|added]; [assumption|].
      rewrite IH, <- app_assoc. reflexivity.
    + specialize (IH posts). now destruct (collect cwd md vs).
Qed.

(** [loadMarkdownPosts] returns what [collect] describes: the posts of all
    the documents, or no posts and the first error. *)
Lemma loadMarkdownPosts_collect (cwd : Node) (dir : string) :
  value (loadMarkdownPosts cwd dir)
  = match collect cwd (New false []) (root_visits cwd dir) with
    | inl e => ([], Some e)
    | inr posts => (posts, None)
    end.
Proof.
  unfold loadMarkdownPosts. rewrite bind_value.
  rewrite Walk_run by apply walkFn_never_skips.
  rewrite bind_value.
  pose proof (run_walkFn cwd (New false []) (root_visits cwd dir) []) as H.
  destruct (collect cwd (New false []) (root_visits cwd dir)) as [e|posts].
  - destruct (value (run _ _ _)) as [ps err]. simpl in H. subst err. reflexivity.
  - rewrite H. reflexivity.
Qed.

End Listing_facts.

(** ** Claims about the listing *)

Lemma visits_info (n : Node) :
  forall path info v,
    In v (visits path info n) -> snd v = None -> exists i, snd (fst v) = Some i.
Proof.
  induction n as [denied data|unlistable entries IH|err] using Node_forall;
    intros path info v; cbn [visits].
  - intros [<-|[]] _. now exists info.
  - intros [<-|H] E; [now exists info|].
    destruct unlistable; [contradiction|].
    induction entries as [|[name child] rest IHrest]; [contradiction|].
    inversion IH as [|? ? Hc Hr]; subst.
    apply in_app_or in H. destruct H as [H|H].
    + destruct child; try (eapply Hc; eassumption).
      destruct H as [<-|[]]. discriminate.
    + now apply IHrest.
  - intros [<-|[]] _. now exists info.
Qed.

Lemma root_visits_info (cwd : Node) (root : string) (v : Visit) :
  In v (root_visits cwd root) -> snd v = None -> exists i, snd (fst v) = Some i.
Proof.
  unfold root_visits. destruct (namei cwd root) as [errno|[d x|u l|errno]];
    try apply visits_info; intros [<-|[]]; discriminate.
Qed.

Section Listing_claims.
Context {L : Libs} {PostData Author : Type} {schema : Schema PostData Author}.

Lemma collect_app (cwd : Node) (md : Markdown) (vs1 vs2 : list Visit) :
  collect cwd md (vs1 ++ vs2)
  = match collect cwd md vs1 with
    | inl e => inl e
    | inr posts1 =>
        match collect cwd md vs2 with
        | inl e => inl e
        | inr posts2 => inr (posts1 ++ posts2)%list
        end
    end.
Proof.
  induction vs1 as [|v vs1 IH]; simpl.
  - now destruct (collect cwd md vs2).
  - destruct (visit_result cwd md v) as [e|added]; [reflexivity|].
    rewrite IH. destruct (collect cwd md vs1) as [e|posts1]; [reflexivity|].
    destruct (collect cwd md vs2) as [e|posts2]; [reflexivity|].
    now destruct added.
Qed.

(** An error of [collect] is the error of one of the visits. *)
Lemma collect_error (cwd : Node) (md : Markdown) (vs : list Visit) (e : error) :
  collect cwd md vs = inl e ->
  exists u, In u vs /\ visit_result cwd md u = inl e.
Proof.
  induction vs as [|v vs IH]; simpl; [discriminate|].
  destruct (visit_result cwd md v) as [e'|added] eqn:E.
  - intros H; inversion H; subst. exists v. auto.
  - destruct (collect cwd md vs) as [e'|posts]; [|discriminate].
    intros H; inversion H; subst. destruct (IH eq_refl) as [u [I R]].
    exists u. auto.
Qed.

(** When every visit succeeds, the posts are those of the documents, one
    for one and in the same order. *)
Lemma collect_posts (cwd : Node) (md : Markdown) (vs : list Visit)
  (posts : list PostData) :
  collect cwd md vs = inr posts ->
  Forall2 (fun path post => assemble cwd md path = inr post)
    (map visit_path (filter is_document vs)) posts.
Proof.
  revert posts; induction vs as [|v vs IH]; intros posts; simpl.
  - intros H; inversion H; subst. constructor.
  - destruct (visit_result cwd md v) as [e|added] eqn:E; [discriminate|].
    destruct (collect cwd md vs) as [e|posts']; [discriminate|].
    intros H; inversion H; subst. specialize (IH posts' eq_refl).
    unfold visit_result in E. destruct v as [[path info] err].
    destruct info as [info|], err as [e|]; try discriminate.
    destruct (is_document (path, Some info, None)) eqn:D.
    + destruct (assemble cwd md path) as [e|post] eqn:A; [discriminate|].
      inversion E; subst. simpl. constructor; assumption.
    + inversion E; subst. assumption.
Qed.

(** C3.  All or nothing: when a document of the walked directory fails to be
    read, decoded or converted, the listing returns no posts and an error;
    the error is that document's, unless an entry visited before it had
    already failed, in which case it is that entry's. *)
Theorem listing_fails_as_a_whole (cwd : Node) (dir : string)
  (before after : list Visit) (v : Visit) (e : error) :
  root_visits cwd dir = (before ++ v :: after)%list ->
  is_document v = true ->
  assemble cwd (New false []) (visit_path v) = inl e ->
  exists e',
    value (loadMarkdownPosts cwd dir) = ([], Some e') /\
    (e' = e \/
     exists u, In u before /\ visit_result cwd (New false []) u = inl e').
Proof.
  intros V D A. rewrite loadMarkdownPosts_collect, V, collect_app.
  destruct (collect cwd (New false []) before) as [e'|posts] eqn:B.
  - exists e'. split; [reflexivity|]. right. now apply collect_error.
  - exists e. split; [|now left]. cbn [collect].
    destruct v as [[path info] err]. unfold visit_path in A. simpl in A.
    assert (R : visit_result cwd (New false []) (path, info, err) = inl e).
    { unfold visit_result. rewrite D. unfold is_document in D.
      destruct info as [info|]; [|discriminate].
      destruct err; [discriminate|]. now rewrite A. }
    now rewrite R.
Qed.

(** C5, as the code has it.  Over a directory in which every entry can be
    visited and every document is valid, the listing has exactly one post
    for each document, and the content of each post is exactly what the
    converter wrote for the body block of its document. *)
Theorem listing_has_one_post_per_document (cwd : Node) (dir : string) :
  (forall v, In v (root_visits cwd dir) -> snd v = None) ->
  (forall path, In path (documents cwd dir) ->
     exists post, assemble cwd (New false []) path = inr post) ->
  exists posts,
    value (loadMarkdownPosts cwd dir) = (posts, None) /\
    length posts = length (documents cwd dir) /\
    Forall2 (fun path post =>
               exists content,
                 value (os.ReadFile cwd path) = (content, None) /\
                 fst (goldmark_render (New false []) (body_block content))
                 = get_Content post)
      (documents cwd dir) posts.
Proof.
  intros Hv Hd. rewrite loadMarkdownPosts_collect.
  destruct (collect cwd (New false []) (root_visits cwd dir)) as [e|posts] eqn:C.
  - exfalso. apply collect_error in C. destruct C as [[[path info] err] [I R]].
    pose proof (Hv _ I) as N. simpl in N. subst err.
    destruct (root_visits_info _ _ _ I eq_refl) as [i Hi]. simpl in Hi. subst info.
    unfold visit_result in R.
    destruct (is_document (path, Some i, None)) eqn:D; [|discriminate].
    destruct (Hd path) as [post A].
    { unfold documents. apply in_map_iff. exists (path, Some i, None).
      split; [reflexivity|]. apply filter_In. auto. }
    rewrite A in R. discriminate.
  - exists posts. split; [reflexivity|].
    apply collect_posts in C. fold (documents cwd dir) in C.
    split; [symmetry; eapply Forall2_length; eassumption|].
    eapply Forall2_impl; [|exact C]. intros path post A.
    unfold assemble in A. unfold body_block.
    destruct (value (os.ReadFile cwd path)) as [content [e|]]; [discriminate|].
    exists content. split; [reflexivity|].
    destruct (strings.Cut content _) as [[block body]|].
    + destruct (@unmarshal _ PostData _ _ block zero_PostData) as [p [e|]];
        [discriminate|].
      destruct (goldmark_render _ body) as [html [f|]]; [discriminate|].
      inversion A; subst. simpl. now rewrite get_with_Content.
    + destruct (goldmark_render _ content) as [html [f|]]; [discriminate|].
      inversion A; subst. simpl. now rewrite get_with_Content.
Qed.

(** C6.  When the listing succeeds, its posts stand in the order in which
    the walk visits their documents: the i-th post is assembled from the
    i-th document of [documents], a list that is read off the tree alone
    and so does not depend on what any block says, its [Order] included. *)
Theorem listing_is_in_walk_order (cwd : Node) (dir : string)
  (posts : list PostData) :
  value (loadMarkdownPosts cwd dir) = (posts, None) ->
  Forall2 (fun path post => assemble cwd (New false []) path = inr post)
    (documents cwd dir) posts.
Proof.
  rewrite loadMarkdownPosts_collect.
  destruct (collect cwd (New false []) (root_visits cwd dir)) as [e|posts'] eqn:C;
    [discriminate|].
  intros H; inversion H; subst. now apply collect_posts in C.
Qed.

End Listing_claims.

(** ** The splitter of the listing *)

Lemma last_In {A : Type} (l : list A) (d : A) : l <> [] -> In (last l d) l.
Proof.
  induction l as [|x l IH]; [congruence|]. intros _.
  destruct l as [|y l]; [now left|].
  right. apply IH. discriminate.
Qed.

Lemma last_app_cons {A : Type} (l1 l2 : list A) (x d : A) :
  last (l1 ++ x :: l2) d = last (x :: l2) d.
Proof.
  induction l1 as [|y l1 IH]; [reflexivity|].
  cbn [app]. rewrite <- IH.
  destruct (l1 ++ x :: l2)%list eqn:E; [|reflexivity].
  now destruct l1.
Qed.

(** A document whose one sentinel line is its first line, or the text after
    its last newline, has no "\n---\n" in it. *)
Lemma lone_delimiter_is_not_cut (content : string) :
  delimiter_lines content = 1 ->
  hd "" (Lines content) = delimiter \/ last (Lines content) "" = delimiter ->
  strings.Cut content (strings.nl ++ "---" ++ strings.nl) = None.
Proof.
  intros One Where.
  destruct (strings.Cut content _) as [[block body]|] eqn:C; [|reflexivity].
  exfalso. apply Lines_Cut in C. unfold delimiter_lines in One.
  rewrite C in One, Where.
  rewrite count_occ_app, count_occ_cons_eq in One by reflexivity.
  assert (Zb : count_occ string_dec (Lines block) delimiter = 0) by lia.
  assert (Za : count_occ string_dec (Lines body) delimiter = 0) by lia.
  apply count_occ_not_In in Zb, Za.
  destruct Where as [First|Last].
  - pose proof (Split1_nonempty block (ascii_of_nat 10)) as NE.
    unfold Lines in *. destruct (strings.Split1 block _) as [|x xs]; [congruence|].
    simpl in First. subst x. apply Zb. now left.
  - rewrite last_app_cons in Last.
    pose proof (Split1_nonempty body (ascii_of_nat 10)) as NE.
    apply Za. rewrite <- Last. unfold Lines in *.
    destruct (strings.Split1 body _) as [|x xs] eqn:E; [congruence|].
    change (last (delimiter :: x :: xs) "") with (last (x :: xs) "").
    apply last_In. discriminate.
Qed.

Section Splitter_claims.
Context {L : Libs} {PostData Author : Type} {schema : Schema PostData Author}.

(** C2, as the code has it.  A document with exactly one sentinel line, where
    that line is the first line (an opening delimiter that is never closed)
    or stands at the very end with no newline after it, is taken by the
    listing as a document without front matter: the callback reads the
    file and converts the whole text, the decoder is not called, and the
    post is the zero value with the converted text as its content. *)
Theorem lone_delimiter_means_no_front_matter (cwd : Node) (md : Markdown)
  (path : string) (info : filepath.FileInfo) (posts : list PostData)
  (content : string) :
  filepath.IsDir info = false ->
  strings.HasSuffix (filepath.Name info) ".md" = true ->
  value (os.ReadFile cwd path) = (content, None) ->
  delimiter_lines content = 1 ->
  hd "" (Lines content) = delimiter \/ last (Lines content) "" = delimiter ->
  trace (walkFn cwd md path (Some info) None posts)
  = [os_ReadFile path; Markdown_Convert md content] /\
  value (walkFn cwd md path (Some info) None posts)
  = match goldmark_render md content with
    | (html, None) => ((posts ++ [with_Content html zero_PostData])%list, None)
    | (_, Some f) => (posts, Some (raise f))
    end.
Proof.
  intros NotDir Suffix Read One Where.
  pose proof (lone_delimiter_is_not_cut content One Where) as NoCut.
  unfold walkFn. rewrite NotDir, Suffix. simpl negb. cbn [andb].
  rewrite bind_trace, bind_value, Read, SplitN_2, NoCut.
  unfold os.ReadFile, call, Convert, bind, ret, trace, value; simpl.
  destruct (goldmark_render md content) as [html [f|]]; simpl; auto.
Qed.

End Splitter_claims.

(** C2 as stated fails: this document has exactly one sentinel line, and
    the listing splits it there, calls the decoder on the text before it
    and converts only the text after it. *)
Lemma one_delimiter_in_the_middle_is_split :
  delimiter_lines Demo.one_delimiter = 1 /\
  trace (@walkFn Demo.libs _ _ Part000.PostData_Schema
           (Demo.posts_dir "one.md" Demo.one_delimiter) (New false [])
           "markdown/one.md"
           (Some {| filepath.Name := "one.md"; filepath.IsDir := false |})
           None [])
  = [os_ReadFile "markdown/one.md"; yaml_Unmarshal "Title: T";
     Markdown_Convert (New false []) "Body"] /\
  map Part000.Title
    (fst (value (@walkFn Demo.libs _ _ Part000.PostData_Schema
                   (Demo.posts_dir "one.md" Demo.one_delimiter) (New false [])
                   "markdown/one.md"
                   (Some {| filepath.Name := "one.md"; filepath.IsDir := false |})
                   None [])))
  = ["T"].
Proof. repeat split. Qed.

Lemma lone_delimiter_witness :
  trace (@walkFn Demo.libs _ _ Part000.PostData_Schema
           (Demo.posts_dir "open.md" Demo.opening_only) (New false [])
           "markdown/open.md"
           (Some {| filepath.Name := "open.md"; filepath.IsDir := false |})
           None [])
  = [os_ReadFile "markdown/open.md";
     Markdown_Convert (New false []) Demo.opening_only] /\
  value (@walkFn Demo.libs _ _ Part000.PostData_Schema
           (Demo.posts_dir "open.md" Demo.opening_only) (New false [])
           "markdown/open.md"
           (Some {| filepath.Name := "open.md"; filepath.IsDir := false |})
           None [])
  = match @goldmark_render Demo.libs (New false []) Demo.opening_only with
    | (html, None) =>
        (([] ++ [Part000.set_Content html Part000.PostData_zero])%list, None)
    | (_, Some f) => ([], Some (raise f))
    end.
Proof.
  apply (@lone_delimiter_means_no_front_matter Demo.libs _ _
           Part000.PostData_Schema).
  - reflexivity.
  - reflexivity.
  - reflexivity.
  - reflexivity.
  - left. reflexivity.
Defined.

(** ** The listing in the small world *)

Lemma listing_fails_witness :
  exists e',
    value (@loadMarkdownPosts Demo.libs _ _ Part000.PostData_Schema
             Demo.cwd_denied "./markdown") = ([], Some e') /\
    (e' = PathError "open" "markdown/b.md" EACCES \/
     exists u,
       In u [("./markdown",
              Some {| filepath.Name := "markdown"; filepath.IsDir := true |}, None);
             ("markdown/a.md",
              Some {| filepath.Name := "a.md"; filepath.IsDir := false |}, None)] /\
       @visit_result Demo.libs _ _ Part000.PostData_Schema
         Demo.cwd_denied (New false []) u = inl e').
Proof.
  apply (@listing_fails_as_a_whole Demo.libs _ _ Part000.PostData_Schema
           Demo.cwd_denied "./markdown" _
           [("markdown/c.md",
             Some {| filepath.Name := "c.md"; filepath.IsDir := false |}, None)]
           ("markdown/b.md",
            Some {| filepath.Name := "b.md"; filepath.IsDir := false |}, None)).
  - reflexivity.
  - reflexivity.
  - reflexivity.
Defined.

Lemma listing_has_one_post_per_document_witness :
  exists posts,
    value (@loadMarkdownPosts Demo.libs _ _ Part000.PostData_Schema
             Demo.cwd "./markdown") = (posts, None) /\
    length posts = length (documents Demo.cwd "./markdown") /\
    Forall2 (fun path post =>
               exists content,
                 value (os.ReadFile Demo.cwd path) = (content, None) /\
                 fst (@goldmark_render Demo.libs (New false []) (body_block content))
                 = Part000.Content post)
      (documents Demo.cwd "./markdown") posts.
Proof.
  apply (@listing_has_one_post_per_document Demo.libs _ _ Part000.PostData_Schema
           Demo.cwd "./markdown").
  - intros v H. simpl in H.
    repeat (destruct H as [<-|H]; [reflexivity|]). contradiction.
  - intros path H. simpl in H.
    repeat (destruct H as [<-|H]; [eexists; reflexivity|]). contradiction.
Defined.

Lemma listing_is_in_walk_order_witness :
  Forall2 (fun path post =>
             @assemble Demo.libs _ _ Part000.PostData_Schema
               Demo.cwd (New false []) path = inr post)
    (documents Demo.cwd "./markdown")
    (fst (value (@loadMarkdownPosts Demo.libs _ _ Part000.PostData_Schema
                   Demo.cwd "./markdown"))).
Proof.
  apply (@listing_is_in_walk_order Demo.libs _ _ Part000.PostData_Schema).
  reflexivity.
Defined.

(** In the small world the post with [Order] 2 stands before the post with
    [Order] 1, as their files do in the directory. *)
Example listing_ignores_Order :
  map (fun post => (Part000.Title post, Part000.Order post))
    (fst (value (@loadMarkdownPosts Demo.libs _ _ Part000.PostData_Schema
                   Demo.cwd "./markdown")))
  = [("A", 2%Z); ("B", 1%Z); ("", 0%Z)].
Proof. reflexivity. Qed.

(** C5 as stated fails on its second half: this document is valid and its
    body block is one space, and the converter of the small world, like a
    CommonMark converter, writes nothing for it. *)
Lemma blank_body_gives_empty_content :
  documents (Demo.posts_dir "blank.md" Demo.blank_body) "./markdown"
  = ["markdown/blank.md"] /\
  body_block Demo.blank_body <> "" /\
  (let listing :=
     value (@loadMarkdownPosts Demo.libs _ _ Part000.PostData_Schema
              (Demo.posts_dir "blank.md" Demo.blank_body) "./markdown") in
   snd listing = None /\ map Part000.Content (fst listing) = [""]).
Proof. repeat split. discriminate. Qed.

(** ** [FileReader.Read] *)

Lemma namei_escapes (cwd : Node) (unlistable unlistable' : option Errno)
  (entries sub : list (string * Node)) (rest : string) :
  cwd = Directory unlistable entries ->
  lookup_entry "markdown" entries = Some (Directory unlistable' sub) ->
  namei cwd ("markdown/../" ++ rest) = namei cwd rest.
Proof.
  intros -> Hm. unfold namei.
  change ("markdown/../" ++ rest)
    with ("markdown" ++ String "/" (".." ++ String "/" rest)).
  rewrite Split1_app, Split1_app. simpl. now rewrite Hm.
Qed.

(** C9.  For every slug, [Read] opens the path "markdown/" + slug + ".md"
    and nothing else, whatever the slug is, and returns what reading that
    path gives; for the empty slug the path is "markdown/.md"; and for a
    slug that starts with "../" the path resolves, next to a [markdown]
    directory, to the rest of the slug taken from the working directory,
    which is outside [markdown]. *)
Theorem FileReader_Read_path (fRead : FileReader) (cwd : Node) (slug : string) :
  let path := "markdown/" ++ slug ++ ".md" in
  trace (FileReader_Read fRead cwd slug)
  = os_Open path ::
    match snd (os.open cwd path) with
    | None => [io_ReadAll path]
    | Some _ => []
    end /\
  value (FileReader_Read fRead cwd slug) = value (os.ReadFile cwd path) /\
  (slug = "" -> path = "markdown/.md") /\
  (forall unlistable entries unlistable' sub rest,
      cwd = Directory unlistable entries ->
      lookup_entry "markdown" entries = Some (Directory unlistable' sub) ->
      slug = "../" ++ rest ->
      namei cwd path = namei cwd (rest ++ ".md")).
Proof.
  intros path. repeat split.
  - unfold FileReader_Read, os.Open, io.ReadAll, os.ReadFile, call, bind, ret,
      trace. fold path.
    destruct (os.open cwd path) as [f [e|]] eqn:O; simpl; [reflexivity|].
    assert (N : os.Name f = path).
    { unfold os.open in O.
      destruct (namei cwd path) as [errno|[[d|] x|u l|errno]];
        inversion O; reflexivity. }
    rewrite N. now destruct (os.read f) as [b [e|]].
  - unfold FileReader_Read, os.Open, io.ReadAll, os.ReadFile, call, bind, ret,
      value. fold path.
    destruct (os.open cwd path) as [f [e|]]; simpl; [reflexivity|].
    unfold os.read. now destruct (os.node f) as [d [x|x]|u l|errno].
  - intros ->. reflexivity.
  - intros unlistable entries unlistable' sub rest Hc Hm ->.
    unfold path. apply (namei_escapes _ _ _ _ _ _ Hc Hm).
Qed.

Lemma FileReader_Read_path_witness :
  namei Demo.cwd ("markdown/" ++ "../secret" ++ ".md")
  = namei Demo.cwd ("secret" ++ ".md") /\
  value (FileReader_Read FileReader_lit Demo.cwd "../secret")
  = ("top secret", None).
Proof.
  split.
  - apply (proj2 (proj2 (proj2
             (FileReader_Read_path FileReader_lit Demo.cwd "../secret")))
             None _ None _ "secret" eq_refl eq_refl eq_refl).
  - reflexivity.
Defined.

(** ** The handlers of [GET /posts/:slug] *)

Lemma FileReader_Read_missing (fRead : FileReader) (cwd : Node) (slug : string)
  (errno : Errno) :
  namei cwd ("markdown/" ++ slug ++ ".md") = inl errno ->
  FileReader_Read fRead cwd slug
  = (("", Some (PathError "open" ("markdown/" ++ slug ++ ".md") errno)),
     [os_Open ("markdown/" ++ slug ++ ".md")]).
Proof.
  intros H. unfold FileReader_Read, os.Open, os.open, call, bind, ret.
  now rewrite H.
Qed.

Section Handler_claims.
Context {L : Libs}.

(** C7.  When the path of the slug leads to no file, both handlers answer
    404 with a plain-text body; the only call they make is the [os.Open]
    that fails, so no front matter is parsed and nothing is converted, and
    what they leave in the context holds no post for a template. *)
Theorem missing_document_is_404 (cwd : Node) (slug : string) (errno : Errno) :
  namei cwd ("markdown/" ++ slug ++ ".md") = inl errno ->
  Server.PostHandler FileReader_lit cwd slug
  = (gin.PlainText http.StatusNotFound "Post not found",
     [os_Open ("markdown/" ++ slug ++ ".md")]) /\
  (exists body,
      Part000.PostHandler FileReader_lit cwd slug
      = (gin.PlainText http.StatusNotFound body,
         [os_Open ("markdown/" ++ slug ++ ".md")])) /\
  gin.rendered (value (Server.PostHandler FileReader_lit cwd slug)) = None /\
  gin.rendered (value (Part000.PostHandler FileReader_lit cwd slug)) = None.
Proof.
  intros H.
  assert (S : Server.PostHandler FileReader_lit cwd slug
              = (gin.PlainText http.StatusNotFound "Post not found",
                 [os_Open ("markdown/" ++ slug ++ ".md")])).
  { unfold Server.PostHandler, Server.readAndParse. cbn [Read FileReader_SlugRender].
    rewrite (FileReader_Read_missing _ _ _ _ H). reflexivity. }
  assert (P : Part000.PostHandler FileReader_lit cwd slug
              = (gin.PlainText http.StatusNotFound
                   (fmt.Sprintf "Post not found"
                      [PathError "open" ("markdown/" ++ slug ++ ".md") errno]),
                 [os_Open ("markdown/" ++ slug ++ ".md")])).
  { unfold Part000.PostHandler. cbn [Read FileReader_SlugRender].
    rewrite (FileReader_Read_missing _ _ _ _ H). reflexivity. }
  rewrite S, P. repeat split. eexists. reflexivity.
Qed.

(** In [server.go] every error of [Read] is answered 404 with the body
    "Post not found", whatever the reader and whatever the error; in the
    second file the status is the same. *)
Theorem Read_error_is_404 {T : Type} {reader : SlugRender T} (sl : T)
  (cwd : Node) (slug : string) (e : error) :
  snd (value (Read sl cwd slug)) = Some e ->
  value (Server.PostHandler sl cwd slug)
  = gin.PlainText http.StatusNotFound "Post not found" /\
  gin.status (value (Part000.PostHandler sl cwd slug)) = http.StatusNotFound.
Proof.
  intros H. unfold Server.PostHandler, Server.readAndParse, Part000.PostHandler.
  rewrite !bind_value.
  destruct (value (Read sl cwd slug)) as [postMarkdown err]. simpl in H. subst err.
  split; reflexivity.
Qed.

(** The second file tells a document that cannot be read from one that
    cannot be parsed: 404 exactly when [Read] fails, and 500 with a
    plain-text body when [Read] succeeds and the front matter does not
    decode. *)
Theorem Part000_malformed_is_500 {T : Type} {reader : SlugRender T} (sl : T)
  (cwd : Node) (slug : string) :
  (gin.status (value (Part000.PostHandler sl cwd slug)) = http.StatusNotFound
   <-> snd (value (Read sl cwd slug)) <> None) /\
  (forall postMarkdown out e,
      value (Read sl cwd slug) = (postMarkdown, None) ->
      value (frontmatter_Parse_ postMarkdown Part000.PostData_zero)
      = (out, "", Some e) ->
      value (Part000.PostHandler sl cwd slug)
      = gin.PlainText http.StatusInternalServerError
          (fmt.Sprintf "Error parsing frontmatter" [e])).
Proof.
  unfold Part000.PostHandler. rewrite bind_value.
  destruct (value (Read sl cwd slug)) as [postMarkdown [e|]] eqn:R.
  - split; [|intros ? ? ? H; discriminate].
    split; [discriminate|reflexivity].
  - split.
    + simpl snd. rewrite bind_value.
      destruct (value (frontmatter_Parse_ postMarkdown Part000.PostData_zero))
        as [[post remainingMd] [e|]].
      * split; [discriminate|congruence].
      * rewrite bind_value.
        destruct (value (Convert _ remainingMd "")) as [buf [e|]];
          (split; [discriminate|congruence]).
    + intros ? out e H F. inversion H; subst. now rewrite bind_value, F.
Qed.

End Handler_claims.

Lemma missing_document_is_404_witness :
  @Server.PostHandler Demo.libs _ _ FileReader_lit Demo.cwd "missing"
  = (gin.PlainText http.StatusNotFound "Post not found",
     [os_Open ("markdown/" ++ "missing" ++ ".md")]) /\
  (exists body,
      @Part000.PostHandler Demo.libs _ _ FileReader_lit Demo.cwd "missing"
      = (gin.PlainText http.StatusNotFound body,
         [os_Open ("markdown/" ++ "missing" ++ ".md")])) /\
  gin.rendered
    (value (@Server.PostHandler Demo.libs _ _ FileReader_lit Demo.cwd "missing"))
  = None /\
  gin.rendered
    (value (@Part000.PostHandler Demo.libs _ _ FileReader_lit Demo.cwd "missing"))
  = None.
Proof.
  apply (@missing_document_is_404 Demo.libs Demo.cwd "missing" ENOENT).
  reflexivity.
Defined.

Lemma Read_error_is_404_witness :
  value (@Server.PostHandler Demo.libs _ _ FileReader_lit Demo.cwd_denied "b")
  = gin.PlainText http.StatusNotFound "Post not found" /\
  gin.status
    (value (@Part000.PostHandler Demo.libs _ _ FileReader_lit Demo.cwd_denied "b"))
  = http.StatusNotFound.
Proof.
  apply (@Read_error_is_404 Demo.libs _ _ FileReader_lit Demo.cwd_denied "b"
           (PathError "open" "markdown/b.md" EACCES)).
  reflexivity.
Defined.

(** C1 in [server.go]: the document is read, its block does not parse, and
    the answer is 404 "Post not found", where the second file answers 500. *)
Lemma Server_malformed_is_404 :
  let cwd := Demo.posts_dir "bad.md" Demo.malformed in
  value (FileReader_Read FileReader_lit cwd "bad") = (Demo.malformed, None) /\
  snd (value (@frontmatter_Parse_ Demo.libs _ _ Server.PostData_Schema
                Demo.malformed Server.PostData_zero)) <> None /\
  value (@Server.PostHandler Demo.libs _ _ FileReader_lit cwd "bad")
  = gin.PlainText http.StatusNotFound "Post not found" /\
  gin.status (value (@Part000.PostHandler Demo.libs _ _ FileReader_lit cwd "bad"))
  = http.StatusInternalServerError.
Proof. repeat split. discriminate. Qed.

(** C10 in the second file: the error is handed to [ctx.String] as a value
    for a format that has no verb, so the body is not "Post not found". *)
Lemma Part000_body_carries_the_error :
  value (@Part000.PostHandler Demo.libs _ _ FileReader_lit Demo.cwd "missing")
  = gin.PlainText http.StatusNotFound
      ("Post not found"
       ++ "%!(EXTRA *fs.PathError=open markdown/missing.md: "
       ++ "no such file or directory)").
Proof. reflexivity. Qed.

(** C4 in [server.go]: [PostData] has no [Date] field there, so a [Date] key
    is one of the unknown keys and is dropped; the second file keeps it. *)
Lemma Server_drops_Date :
  let block := [ ("Title", yaml.Str "Test"); ("Date", yaml.Str "2024-05-01") ] in
  yaml.find "Date" Server.PostData_yaml = None /\
  yaml.mappingStruct _ _ Author_zero Author_yaml Server.PostData_yaml block
    Server.PostData_zero
  = (Server.set_Title "Test" Server.PostData_zero, []) /\
  yaml.mappingStruct _ _ Author_zero Author_yaml Part000.PostData_yaml block
    Part000.PostData_zero
  = (Part000.set_Date "2024-05-01"
       (Part000.set_Title "Test" Part000.PostData_zero), []).
Proof. repeat split. Qed.

(** The spec's example block, decoded in the second file. *)
Example Part000_decodes_the_example :
  @unmarshal Demo.libs _ _ Part000.PostData_Schema
    (Demo.doc ["Title: Test"; "Slug: test"; "Order: 3"]) Part000.PostData_zero
  = (Part000.set_Order 3
       (Part000.set_Slug "test"
          (Part000.set_Title "Test" Part000.PostData_zero)), None).
Proof. reflexivity. Qed.

Section Rendering.
Context {L : Libs}.

(** [renderMarkdown] starts from an empty buffer at every call: what it
    returns is what the converter wrote for this input, and nothing that an
    earlier call wrote. *)
Theorem renderMarkdown_fresh_buffer (md : Markdown) (markdown : string) :
  Server.renderMarkdown md markdown
  = (match goldmark_render md markdown with
     | (written, None) => (written, None)
     | (_, Some f) => ("", Some (raise f))
     end, [Markdown_Convert md markdown]).
Proof.
  unfold Server.renderMarkdown, Convert, call, bind, ret.
  now destruct (goldmark_render md markdown) as [written [f|]].
Qed.

End Rendering.

(** ** Decoding a block into [PostData] *)

Lemma find_not_In {F : Type} (key : string) (pairs : list (string * F)) :
  ~ In key (map fst pairs) -> yaml.find key pairs = None.
Proof.
  induction pairs as [|[k f] pairs IH]; simpl; [reflexivity|].
  intros N. destruct (String.eqb k key) eqn:E.
  - apply String.eqb_eq in E. tauto.
  - apply IH. tauto.
Qed.

Section Field_by_field.
Variables (P Q X : Type).
Variable zeroQ : Q.
Variable inner : list (string * yaml.Field Q unit).
Variable fields : list (string * yaml.Field P Q).
Variable get : P -> X.
Variable key : string.
Variable at_key : yaml.Value -> X -> X.

Hypothesis frame : forall k f v out,
    yaml.find k fields = Some f -> String.eqb k key = false ->
    get (fst (yaml.decode_field P Q zeroQ inner k f v out)) = get out.

Hypothesis hit : forall f v out,
    yaml.find key fields = Some f ->
    get (fst (yaml.decode_field P Q zeroQ inner key f v out)) = at_key v (get out).

Hypothesis known : yaml.find key fields <> None.

(** The field read by [get] holds what the pair of its key left there, and
    is untouched when the block has no such pair. *)
Lemma mappingStruct_field (pairs : list (string * yaml.Value)) :
  NoDup (map fst pairs) ->
  forall out,
    get (fst (yaml.mappingStruct P Q zeroQ inner fields pairs out))
    = match yaml.find key pairs with
      | Some v => at_key v (get out)
      | None => get out
      end.
Proof.
  induction pairs as [|[k v] pairs IH]; intros ND out; [reflexivity|].
  inversion ND as [|? ? NI ND']; subst. cbn [yaml.mappingStruct yaml.find].
  destruct (String.eqb k key) eqn:E.
  - apply String.eqb_eq in E. subst k.
    destruct (yaml.find key fields) as [f|] eqn:F; [|contradiction].
    specialize (hit f v out eq_refl).
    destruct (yaml.decode_field P Q zeroQ inner key f v out) as [out1 errs].
    specialize (IH ND' out1).
    destruct (yaml.mappingStruct P Q zeroQ inner fields pairs out1) as [out2 errs'].
    simpl in *. rewrite IH, (find_not_In _ _ NI). exact hit.
  - destruct (yaml.find k fields) as [f|] eqn:F; [|now apply IH].
    specialize (frame k f v out F E).
    destruct (yaml.decode_field P Q zeroQ inner k f v out) as [out1 errs].
    specialize (IH ND' out1).
    destruct (yaml.mappingStruct P Q zeroQ inner fields pairs out1) as [out2 errs'].
    simpl in *. rewrite IH, frame. reflexivity.
Qed.

End Field_by_field.

(** The same, one level down: the fields of a struct without nested
    structs. *)
Section Leaf_by_leaf.
Variables (Q X : Type).
Variable inner : list (string * yaml.Field Q unit).
Variable get : Q -> X.
Variable key : string.
Variable at_key : yaml.Value -> X -> X.

Hypothesis frame : forall k f v out,
    yaml.find k inner = Some f -> String.eqb k key = false ->
    get (fst (yaml.decode_leaf Q k f v out)) = get out.

Hypothesis hit : forall f v out,
    yaml.find key inner = Some f ->
    get (fst (yaml.decode_leaf Q key f v out)) = at_key v (get out).

Hypothesis known : yaml.find key inner <> None.

Lemma mapping_leaf_field (pairs : list (string * yaml.Value)) :
  NoDup (map fst pairs) ->
  forall out,
    get (fst (yaml.mapping_leaf Q inner pairs out))
    = match yaml.find key pairs with
      | Some v => at_key v (get out)
      | None => get out
      end.
Proof.
  induction pairs as [|[k v] pairs IH]; intros ND out; [reflexivity|].
  inversion ND as [|? ? NI ND']; subst. cbn [yaml.mapping_leaf yaml.find].
  destruct (String.eqb k key) eqn:E.
  - apply String.eqb_eq in E. subst k.
    destruct (yaml.find key inner) as [f|] eqn:F; [|contradiction].
    specialize (hit f v out eq_refl).
    destruct (yaml.decode_leaf Q key f v out) as [out1 errs].
    specialize (IH ND' out1).
    destruct (yaml.mapping_leaf Q inner pairs out1) as [out2 errs'].
    simpl in *. rewrite IH, (find_not_In _ _ NI). exact hit.
  - destruct (yaml.find k inner) as [f|] eqn:F; [|now apply IH].
    specialize (frame k f v out F E).
    destruct (yaml.decode_leaf Q k f v out) as [out1 errs].
    specialize (IH ND' out1).
    destruct (yaml.mapping_leaf Q inner pairs out1) as [out2 errs'].
    simpl in *. rewrite IH, frame. reflexivity.
Qed.

End Leaf_by_leaf.

Ltac by_table F :=
  unfold Author_yaml, Part000.PostData_yaml, Server.PostData_yaml in F;
  cbn [yaml.find] in F;
  repeat match type of F with
         | context [String.eqb ?a ?k] => destruct (String.eqb a k) eqn:?
         end;
  try discriminate F; inversion F; subst; clear F.

Ltac frame_case :=
  let k := fresh "k" in let f := fresh "f" in let v := fresh "v" in
  let out := fresh "out" in let F := fresh "F" in let E := fresh "E" in
  intros k f v out F E; rewrite String.eqb_sym in E; by_table F;
  try congruence; cbn [yaml.decode_field yaml.decode_leaf];
  try destruct (yaml.to_string v); try destruct (yaml.to_int v);
  try reflexivity;
  destruct v; try reflexivity;
  match goal with
  | |- context [yaml.mapping_leaf ?Q ?i ?p ?o] =>
      destruct (yaml.mapping_leaf Q i p o); reflexivity
  end.

Ltac hit_case :=
  let f := fresh "f" in let v := fresh "v" in
  let out := fresh "out" in let F := fresh "F" in
  intros f v out F; cbn in F; inversion F; subst; clear F;
  unfold string_at, Z_at, struct_at;
  cbn [yaml.decode_field yaml.decode_leaf];
  try destruct (yaml.to_string v); try destruct (yaml.to_int v);
  try reflexivity;
  destruct v; try reflexivity;
  match goal with
  | |- context [yaml.mapping_leaf ?Q ?i ?p ?o] =>
      destruct (yaml.mapping_leaf Q i p o); reflexivity
  end.

Lemma Author_decoded (inner : list (string * yaml.Value)) :
  NoDup (map fst inner) ->
  fst (yaml.mapping_leaf Author Author_yaml inner Author_zero)
  = {| Name := text_at "name" inner; Email := text_at "email" inner |}.
Proof.
  intros ND.
  pose proof (mapping_leaf_field Author string Author_yaml Name "name" string_at
                ltac:(frame_case) ltac:(hit_case) ltac:(discriminate)
                inner ND Author_zero) as HN.
  pose proof (mapping_leaf_field Author string Author_yaml Email "email" string_at
                ltac:(frame_case) ltac:(hit_case) ltac:(discriminate)
                inner ND Author_zero) as HE.
  destruct (fst (yaml.mapping_leaf Author Author_yaml inner Author_zero))
    as [name email].
  simpl in HN, HE. subst. unfold text_at, string_at.
  f_equal; destruct (yaml.find _ inner); reflexivity.
Qed.

Section Part000_fields.

Let decoded (pairs : list (string * yaml.Value)) : Part000.PostData :=
  fst (yaml.mappingStruct Part000.PostData Author Author_zero Author_yaml
         Part000.PostData_yaml pairs Part000.PostData_zero).

Let string_field (get : Part000.PostData -> string) (key : string) : Prop :=
  forall pairs, NoDup (map fst pairs) -> get (decoded pairs) = text_at key pairs.

Local Ltac string_field_tac get key :=
  let pairs := fresh "pairs" in let ND := fresh "ND" in
  intros pairs ND; unfold decoded;
  rewrite (mappingStruct_field Part000.PostData Author string Author_zero
             Author_yaml Part000.PostData_yaml get key string_at
             ltac:(frame_case) ltac:(hit_case) ltac:(discriminate) pairs ND);
  unfold text_at, string_at; destruct (yaml.find key pairs); reflexivity.

Lemma Part000_Title : string_field Part000.Title "Title".
Proof. string_field_tac Part000.Title "Title". Qed.

Lemma Part000_Slug : string_field Part000.Slug "Slug".
Proof. string_field_tac Part000.Slug "Slug". Qed.

Lemma Part000_Date : string_field Part000.Date "Date".
Proof. string_field_tac Part000.Date "Date". Qed.

Lemma Part000_Description : string_field Part000.Description "Description".
Proof. string_field_tac Part000.Description "Description". Qed.

Lemma Part000_MetaDescription :
  string_field Part000.MetaDescription "MetaDescription".
Proof. string_field_tac Part000.MetaDescription "MetaDescription". Qed.

Lemma Part000_MetaPropertyTitle :
  string_field Part000.MetaPropertyTitle "MetaPropertyTitle".
Proof. string_field_tac Part000.MetaPropertyTitle "MetaPropertyTitle". Qed.

Lemma Part000_MetaPropertyDescription :
  string_field Part000.MetaPropertyDescription "MetaPropertyDescription".
Proof.
  string_field_tac Part000.MetaPropertyDescription "MetaPropertyDescription".
Qed.

Lemma Part000_MetaOgURL : string_field Part000.MetaOgURL "MetaOgURL".
Proof. string_field_tac Part000.MetaOgURL "MetaOgURL". Qed.

Lemma Part000_Content : string_field Part000.Content "content".
Proof. string_field_tac Part000.Content "content". Qed.


Lemma Part000_Order pairs :
  NoDup (map fst pairs) -> Part000.Order (decoded pairs) = int_at "Order" pairs.
Proof.
  intros ND. unfold decoded.
  rewrite (mappingStruct_field Part000.PostData Author Z Author_zero
             Author_yaml Part000.PostData_yaml Part000.Order "Order" Z_at
             ltac:(frame_case) ltac:(hit_case) ltac:(discriminate) pairs ND).
  unfold int_at, Z_at. destruct (yaml.find "Order" pairs); reflexivity.
Qed.

Lemma Part000_Author pairs :
  unique_keys pairs -> Part000.Author_ (decoded pairs) = author_at "author" pairs.
Proof.
  intros [ND NDi]. unfold decoded.
  rewrite (mappingStruct_field Part000.PostData Author Author Author_zero
             Author_yaml Part000.PostData_yaml Part000.Author_ "author" struct_at
             ltac:(frame_case) ltac:(hit_case) ltac:(discriminate) pairs ND).
  unfold author_at, struct_at.
  destruct (yaml.find "author" pairs) as [[]|]; try reflexivity.
  apply Author_decoded. now apply NDi.
Qed.


(** In the second file a block with unique keys decodes field by field:
    every key of the struct lands in its field, and a key the block does
    not have leaves its field at the zero value. *)
Lemma Part000_decodes_field_by_field pairs :
  unique_keys pairs -> decoded pairs = Part000_decoded pairs.
Proof.
  intros U. pose proof U as [ND _].
  pose proof (Part000_Title pairs ND). pose proof (Part000_Slug pairs ND).
  pose proof (Part000_Date pairs ND). pose proof (Part000_Description pairs ND).
  pose proof (Part000_Order pairs ND).
  pose proof (Part000_MetaDescription pairs ND).
  pose proof (Part000_MetaPropertyTitle pairs ND).
  pose proof (Part000_MetaPropertyDescription pairs ND).
  pose proof (Part000_MetaOgURL pairs ND). pose proof (Part000_Author pairs U).
  pose proof (Part000_Content pairs ND).
  unfold Part000_decoded. destruct (decoded pairs). simpl in *. congruence.
Qed.

End Part000_fields.

Section Server_fields.

Let decoded (pairs : list (string * yaml.Value)) : Server.PostData :=
  fst (yaml.mappingStruct Server.PostData Author Author_zero Author_yaml
         Server.PostData_yaml pairs Server.PostData_zero).

Let string_field (get : Server.PostData -> string) (key : string) : Prop :=
  forall pairs, NoDup (map fst pairs) -> get (decoded pairs) = text_at key pairs.

Local Ltac string_field_tac get key :=
  let pairs := fresh "pairs" in let ND := fresh "ND" in
  intros pairs ND; unfold decoded;
  rewrite (mappingStruct_field Server.PostData Author string Author_zero
             Author_yaml Server.PostData_yaml get key string_at
             ltac:(frame_case) ltac:(hit_case) ltac:(discriminate) pairs ND);
  unfold text_at, string_at; destruct (yaml.find key pairs); reflexivity.

Lemma Server_Title : string_field Server.Title "Title".
Proof. string_field_tac Server.Title "Title". Qed.

Lemma Server_Slug : string_field Server.Slug "Slug".
Proof. string_field_tac Server.Slug "Slug". Qed.

Lemma Server_Description : string_field Server.Description "Description".
Proof. string_field_tac Server.Description "Description". Qed.

Lemma Server_MetaDescription :
  string_field Server.MetaDescription "MetaDescription".
Proof. string_field_tac Server.MetaDescription "MetaDescription". Qed.

Lemma Server_MetaPropertyTitle :
  string_field Server.MetaPropertyTitle "MetaPropertyTitle".
Proof. string_field_tac Server.MetaPropertyTitle "MetaPropertyTitle". Qed.

Lemma Server_MetaPropertyDescription :
  string_field Server.MetaPropertyDescription "MetaPropertyDescription".
Proof.
  string_field_tac Server.MetaPropertyDescription "MetaPropertyDescription".
Qed.

Lemma Server_MetaOgURL : string_field Server.MetaOgURL "MetaOgURL".
Proof. string_field_tac Server.MetaOgURL "MetaOgURL". Qed.

Lemma Server_Content : string_field Server.Content "content".
Proof. string_field_tac Server.Content "content". Qed.


Lemma Server_Order pairs :
  NoDup (map fst pairs) -> Server.Order (decoded pairs) = int_at "Order" pairs.
Proof.
  intros ND. unfold decoded.
  rewrite (mappingStruct_field Server.PostData Author Z Author_zero
             Author_yaml Server.PostData_yaml Server.Order "Order" Z_at
             ltac:(frame_case) ltac:(hit_case) ltac:(discriminate) pairs ND).
  unfold int_at, Z_at. destruct (yaml.find "Order" pairs); reflexivity.
Qed.

Lemma Server_Author pairs :
  unique_keys pairs -> Server.Author_ (decoded pairs) = author_at "author" pairs.
Proof.
  intros [ND NDi]. unfold decoded.
  rewrite (mappingStruct_field Server.PostData Author Author Author_zero
             Author_yaml Server.PostData_yaml Server.Author_ "author" struct_at
             ltac:(frame_case) ltac:(hit_case) ltac:(discriminate) pairs ND).
  unfold author_at, struct_at.
  destruct (yaml.find "author" pairs) as [[]|]; try reflexivity.
  apply Author_decoded. now apply NDi.
Qed.


(** The same in [server.go], whose struct has no [Date]. *)
Lemma Server_decodes_field_by_field pairs :
  unique_keys pairs -> decoded pairs = Server_decoded pairs.
Proof.
  intros U. pose proof U as [ND _].
  pose proof (Server_Title pairs ND). pose proof (Server_Slug pairs ND).
  pose proof (Server_Description pairs ND).
  pose proof (Server_Order pairs ND).
  pose proof (Server_MetaDescription pairs ND).
  pose proof (Server_MetaPropertyTitle pairs ND).
  pose proof (Server_MetaPropertyDescription pairs ND).
  pose proof (Server_MetaOgURL pairs ND). pose proof (Server_Author pairs U).
  pose proof (Server_Content pairs ND).
  unfold Server_decoded. destruct (decoded pairs). simpl in *. congruence.
Qed.

End Server_fields.

(** A pair whose key the struct does not have changes nothing, wherever it
    stands in the block. *)
Lemma unknown_key_is_ignored (P Q : Type) (zeroQ : Q)
  (inner : list (string * yaml.Field Q unit))
  (fields : list (string * yaml.Field P Q))
  (before after : list (string * yaml.Value)) (key : string) (v : yaml.Value)
  (out : P) :
  yaml.find key fields = None ->
  yaml.mappingStruct P Q zeroQ inner fields (before ++ (key, v) :: after) out
  = yaml.mappingStruct P Q zeroQ inner fields (before ++ after) out.
Proof.
  intros U. revert out. induction before as [|[k x] before IH]; intros out; simpl.
  - now rewrite U.
  - destruct (yaml.find k fields) as [f|]; [|apply IH].
    destruct (yaml.decode_field P Q zeroQ inner k f x out) as [out1 errs].
    now rewrite IH.
Qed.

Section Assembly_claims.
Context {L : Libs} {T : Type} {reader : SlugRender T}.

(** Single-post assembly in the second file.  A document that is read,
    whose block parses to pairs with unique keys and decodes without a type
    error, and whose body converts, is answered 200 with the template
    [post.html] and a post
    in which every key of the struct (Title, Slug, Date, Description, Order,
    MetaDescription, MetaPropertyTitle, MetaPropertyDescription, MetaOgURL,
    author with name and email) is in its field, the keys the block does
    not have are at their zero values, and the content is the converted
    body. *)
Theorem Part000_assembles_the_post (sl : T) (cwd : Node) (slug : string)
  (postMarkdown block rest : string) (pairs : list (string * yaml.Value))
  (html : string) :
  value (Read sl cwd slug) = (postMarkdown, None) ->
  frontmatter_read postMarkdown = inr (Some block, rest) ->
  yaml_parse block = inr (Some (yaml.Map pairs)) ->
  unique_keys pairs ->
  snd (yaml.mappingStruct _ _ Author_zero Author_yaml Part000.PostData_yaml
         pairs Part000.PostData_zero) = [] ->
  goldmark_render (New false [GFM; Highlighting "dracula"]) rest = (html, None) ->
  value (Part000.PostHandler sl cwd slug)
  = gin.Template http.StatusOK "post.html"
      (Part000.set_Content html (Part000_decoded pairs)).
Proof.
  intros R F Y U E G. unfold Part000.PostHandler.
  rewrite bind_value, R. cbn match. rewrite bind_value.
  unfold frontmatter_Parse_ at 1, call, value at 2. cbn [fst].
  rewrite F. unfold unmarshal. rewrite Y.
  cbn [yaml.decode zero_PostData zero_Author Author_fields PostData_fields
         Part000.PostData_Schema].
  pose proof (Part000_decodes_field_by_field pairs U) as D. cbv beta zeta in D.
  destruct (yaml.mappingStruct _ _ _ _ _ pairs Part000.PostData_zero)
    as [post errs].
  simpl in E, D. subst errs post.
  cbn match. rewrite bind_value. unfold Convert, call, value at 2. cbn [fst].
  rewrite G. reflexivity.
Qed.

End Assembly_claims.

Lemma Part000_assembles_the_post_witness :
  value (@Part000.PostHandler Demo.libs _ _ FileReader_lit Demo.cwd "b")
  = gin.Template http.StatusOK "post.html"
      (Part000.set_Content ("<p># B</p>" ++ strings.nl)
         (Part000_decoded [("Title", yaml.Str "B"); ("Order", yaml.Int "1" 1)])).
Proof.
  apply (@Part000_assembles_the_post Demo.libs _ _ FileReader_lit Demo.cwd "b"
           (Demo.doc ["---"; "Title: B"; "Order: 1"; "---"; "# B"])
           (Demo.doc ["Title: B"; "Order: 1"]) "# B").
  - reflexivity.
  - reflexivity.
  - reflexivity.
  - split.
    + repeat constructor; simpl; intuition discriminate.
    + intros inner H. discriminate H.
  - reflexivity.
  - reflexivity.
Defined.

Lemma Part000_malformed_is_500_witness :
  value (@Part000.PostHandler Demo.libs _ _ FileReader_lit
           (Demo.posts_dir "bad.md" Demo.malformed) "bad")
  = gin.PlainText http.StatusInternalServerError
      (fmt.Sprintf "Error parsing frontmatter"
         [LibError "*errors.errorString" "yaml: could not find expected ':'"]).
Proof.
  apply (proj2 (@Part000_malformed_is_500 Demo.libs _ _ FileReader_lit
                  (Demo.posts_dir "bad.md" Demo.malformed) "bad")
           Demo.malformed Part000.PostData_zero).
  - reflexivity.
  - reflexivity.
Defined.

(** * Further properties of the code *)

(** ** [FileReader.Read], result by result *)

(** [Read] returns the bytes of a file exactly when its path leads to a
    regular file that can be opened and read, and then the bytes are that
    file's; whenever it returns an error, the string it returns is empty
    and the error is a [*fs.PathError] that names the path. *)
Theorem FileReader_Read_result (fRead : FileReader) (cwd : Node) (slug : string) :
  let path := "markdown/" ++ slug ++ ".md" in
  (forall data,
      value (FileReader_Read fRead cwd slug) = (data, None)
      <-> namei cwd path = inr (RegularFile None (inr data))) /\
  (forall text e,
      value (FileReader_Read fRead cwd slug) = (text, Some e) ->
      text = "" /\
      exists errno, e = PathError "open" path errno \/ e = PathError "read" path errno).
Proof.
  intros path.
  unfold FileReader_Read, os.Open, io.ReadAll, os.open, os.read, call, bind,
    ret, value. fold path.
  split.
  - intros data.
    destruct (namei cwd path) as [errno|[[d|] [x|x]|u l|errno]]; simpl;
      split; intros H; inversion H; reflexivity.
  - intros text e.
    destruct (namei cwd path) as [errno|[[d|] [x|x]|u l|errno]]; simpl;
      intros H; inversion H; subst; split; try reflexivity; eexists; eauto.
Qed.

Lemma FileReader_Read_result_witness :
  value (FileReader_Read FileReader_lit Demo.cwd "a")
  = (Demo.doc ["Title: A"; "Order: 2"; "---"; "# A"], None).
Proof.
  apply (proj1 (FileReader_Read_result FileReader_lit Demo.cwd "a")).
  reflexivity.
Defined.

(** ** The two handlers, stage by stage *)

Lemma bind_ret_l {A B : Type} (a : A) (f : A -> M B) : bind (ret a) f = f a.
Proof. unfold bind, ret. now destruct (f a). Qed.

Section Handler_stages.
Context {L : Libs} {T : Type} {reader : SlugRender T}.

(** Both handlers call [Read], then [frontmatter.Parse] on what was read,
    then [Convert] with the GFM and dracula converter on what the parse
    left, each only when the call before it returned no error, and they
    call nothing else. *)
Theorem PostHandler_stops_at_the_first_error (sl : T) (cwd : Node) (slug : string) :
  trace (Server.PostHandler sl cwd slug)
  = (trace (Read sl cwd slug) ++
     match value (Read sl cwd slug) with
     | (_, Some _) => []
     | (postMarkdown, None) =>
         frontmatter_Parse postMarkdown ::
         match value (frontmatter_Parse_ postMarkdown Server.PostData_zero) with
         | (_, _, Some _) => []
         | (_, remainingMd, None) => [Markdown_Convert rich remainingMd]
         end
     end)%list /\
  trace (Part000.PostHandler sl cwd slug)
  = (trace (Read sl cwd slug) ++
     match value (Read sl cwd slug) with
     | (_, Some _) => []
     | (postMarkdown, None) =>
         frontmatter_Parse postMarkdown ::
         match value (frontmatter_Parse_ postMarkdown Part000.PostData_zero) with
         | (_, _, Some _) => []
         | (_, remainingMd, None) => [Markdown_Convert rich remainingMd]
         end
     end)%list.
Proof.
  assert (PT : forall P A (sch : Schema P A) doc (out : P),
             trace (frontmatter_Parse_ doc out) = [frontmatter_Parse doc])
    by reflexivity.
  assert (CT : forall md source buf,
             trace (Convert md source buf) = [Markdown_Convert md source])
    by reflexivity.
  unfold Server.PostHandler, Server.readAndParse, Server.renderMarkdown,
    Part000.PostHandler. fold rich.
  split.
  - rewrite bind_assoc, bind_trace. f_equal.
    destruct (value (Read sl cwd slug)) as [postMarkdown [e|]]; [reflexivity|].
    rewrite bind_assoc, bind_trace, PT. cbn [app]. f_equal.
    destruct (value (frontmatter_Parse_ postMarkdown Server.PostData_zero))
      as [[parsed remainingMd] [e|]]; [reflexivity|].
    rewrite bind_ret_l. rewrite bind_assoc, bind_trace, CT.
    destruct (value (Convert rich remainingMd "")) as [buf [e|]]; reflexivity.
  - rewrite bind_trace. f_equal.
    destruct (value (Read sl cwd slug)) as [postMarkdown [e|]]; [reflexivity|].
    rewrite bind_trace, PT. cbn [app]. f_equal.
    destruct (value (frontmatter_Parse_ postMarkdown Part000.PostData_zero))
      as [[parsed remainingMd] [e|]]; [reflexivity|].
    rewrite bind_trace, CT.
    destruct (value (Convert rich remainingMd "")) as [buf [e|]]; reflexivity.
Qed.

Lemma Server_PostHandler_value (sl : T) (cwd : Node) (slug : string) :
  value (Server.PostHandler sl cwd slug)
  = match value (Read sl cwd slug) with
    | (_, Some _) => gin.PlainText http.StatusNotFound "Post not found"
    | (postMarkdown, None) =>
        match value (frontmatter_Parse_ postMarkdown Server.PostData_zero) with
        | (_, _, Some _) => gin.PlainText http.StatusNotFound "Post not found"
        | (parsed, remainingMd, None) =>
            match goldmark_render rich remainingMd with
            | (_, Some _) =>
                gin.PlainText http.StatusInternalServerError
                  "Error rendering markdown"
            | (html, None) =>
                gin.Template http.StatusOK "post.html"
                  (Server.set_Content html parsed)
            end
        end
    end.
Proof.
  unfold Server.PostHandler, Server.readAndParse, Server.renderMarkdown.
  fold rich. rewrite bind_assoc, bind_value.
  destruct (value (Read sl cwd slug)) as [postMarkdown [e|]]; [reflexivity|].
  rewrite bind_assoc, bind_value.
  destruct (value (frontmatter_Parse_ postMarkdown Server.PostData_zero))
    as [[parsed remainingMd] [e|]]; [reflexivity|].
  rewrite bind_ret_l, bind_assoc, bind_value.
  unfold Convert, call, value at 2. cbn [fst].
  now destruct (goldmark_render rich remainingMd) as [html [f|]].
Qed.

Lemma Part000_PostHandler_value (sl : T) (cwd : Node) (slug : string) :
  value (Part000.PostHandler sl cwd slug)
  = match value (Read sl cwd slug) with
    | (_, Some e) =>
        gin.PlainText http.StatusNotFound (fmt.Sprintf "Post not found" [e])
    | (postMarkdown, None) =>
        match value (frontmatter_Parse_ postMarkdown Part000.PostData_zero) with
        | (_, _, Some e) =>
            gin.PlainText http.StatusInternalServerError
              (fmt.Sprintf "Error parsing frontmatter" [e])
        | (parsed, remainingMd, None) =>
            match goldmark_render rich remainingMd with
            | (_, Some _) =>
                gin.PlainText http.StatusInternalServerError
                  "Error rendering markdown"
            | (html, None) =>
                gin.Template http.StatusOK "post.html"
                  (Part000.set_Content html parsed)
            end
        end
    end.
Proof.
  unfold Part000.PostHandler. fold rich. rewrite bind_value.
  destruct (value (Read sl cwd slug)) as [postMarkdown [e|]]; [reflexivity|].
  rewrite bind_value.
  destruct (value (frontmatter_Parse_ postMarkdown Part000.PostData_zero))
    as [[parsed remainingMd] [e|]]; [reflexivity|].
  rewrite bind_value. unfold Convert, call, value at 2. cbn [fst].
  now destruct (goldmark_render rich remainingMd) as [html [f|]].
Qed.

(** A handler hands a post to a template only after all three stages
    succeeded: the answer is then 200 with [post.html], and the post is the
    one the parse filled in, with what the converter wrote for the rest of
    the document as its content. *)
Theorem template_means_every_stage_succeeded (sl : T) (cwd : Node) (slug : string) :
  (forall post,
      gin.rendered (value (Server.PostHandler sl cwd slug)) = Some post ->
      exists postMarkdown parsed remainingMd html,
        value (Read sl cwd slug) = (postMarkdown, None) /\
        value (frontmatter_Parse_ postMarkdown Server.PostData_zero)
        = (parsed, remainingMd, None) /\
        goldmark_render rich remainingMd = (html, None) /\
        post = Server.set_Content html parsed /\
        value (Server.PostHandler sl cwd slug)
        = gin.Template http.StatusOK "post.html" post) /\
  (forall post,
      gin.rendered (value (Part000.PostHandler sl cwd slug)) = Some post ->
      exists postMarkdown parsed remainingMd html,
        value (Read sl cwd slug) = (postMarkdown, None) /\
        value (frontmatter_Parse_ postMarkdown Part000.PostData_zero)
        = (parsed, remainingMd, None) /\
        goldmark_render rich remainingMd = (html, None) /\
        post = Part000.set_Content html parsed /\
        value (Part000.PostHandler sl cwd slug)
        = gin.Template http.StatusOK "post.html" post).
Proof.
  rewrite Server_PostHandler_value, Part000_PostHandler_value.
  split; intros post;
    destruct (value (Read sl cwd slug)) as [postMarkdown [e|]];
    try discriminate.
  - destruct (value (frontmatter_Parse_ postMarkdown Server.PostData_zero))
      as [[parsed remainingMd] [e|]] eqn:P; try discriminate.
    destruct (goldmark_render rich remainingMd) as [html [f|]] eqn:G;
      try discriminate.
    intros H; inversion H; subst.
    exists postMarkdown, parsed, remainingMd, html.
    repeat split; try reflexivity; assumption.
  - destruct (value (frontmatter_Parse_ postMarkdown Part000.PostData_zero))
      as [[parsed remainingMd] [e|]] eqn:P; try discriminate.
    destruct (goldmark_render rich remainingMd) as [html [f|]] eqn:G;
      try discriminate.
    intros H; inversion H; subst.
    exists postMarkdown, parsed, remainingMd, html.
    repeat split; try reflexivity; assumption.
Qed.

(** When the document is read and parsed and the converter fails, both
    handlers answer 500 with the body "Error rendering markdown" and hand
    no post to a template. *)
Theorem render_failure_is_500 (sl : T) (cwd : Node) (slug : string)
  (postMarkdown remainingMd written : string) (f : Failure)
  (parsedS : Server.PostData) (parsedP : Part000.PostData) :
  value (Read sl cwd slug) = (postMarkdown, None) ->
  value (frontmatter_Parse_ postMarkdown Server.PostData_zero)
  = (parsedS, remainingMd, None) ->
  value (frontmatter_Parse_ postMarkdown Part000.PostData_zero)
  = (parsedP, remainingMd, None) ->
  goldmark_render rich remainingMd = (written, Some f) ->
  value (Server.PostHandler sl cwd slug)
  = gin.PlainText http.StatusInternalServerError "Error rendering markdown" /\
  value (Part000.PostHandler sl cwd slug)
  = gin.PlainText http.StatusInternalServerError "Error rendering markdown".
Proof.
  intros R PS PP G.
  rewrite Server_PostHandler_value, Part000_PostHandler_value, R, PS, PP, G.
  split; reflexivity.
Qed.

(** Single-post assembly in [server.go].  A document that is read, whose
    block parses to pairs with unique keys and decodes without a type
    error, and whose body converts, is answered 200 with the template
    [post.html] and a post in which every key of the struct (Title, Slug,
    Description, Order, MetaDescription, MetaPropertyTitle,
    MetaPropertyDescription, MetaOgURL, author with name and email) is in
    its field, the keys the block does not have are at their zero values,
    and the content is the converted body. *)
Theorem Server_assembles_the_post (sl : T) (cwd : Node) (slug : string)
  (postMarkdown block rest : string) (pairs : list (string * yaml.Value))
  (html : string) :
  value (Read sl cwd slug) = (postMarkdown, None) ->
  frontmatter_read postMarkdown = inr (Some block, rest) ->
  yaml_parse block = inr (Some (yaml.Map pairs)) ->
  unique_keys pairs ->
  snd (yaml.mappingStruct _ _ Author_zero Author_yaml Server.PostData_yaml
         pairs Server.PostData_zero) = [] ->
  goldmark_render rich rest = (html, None) ->
  value (Server.PostHandler sl cwd slug)
  = gin.Template http.StatusOK "post.html"
      (Server.set_Content html (Server_decoded pairs)).
Proof.
  intros R F Y U E G. rewrite Server_PostHandler_value, R.
  unfold frontmatter_Parse_, call, value. cbn [fst].
  rewrite F. unfold unmarshal. rewrite Y.
  cbn [yaml.decode zero_PostData zero_Author Author_fields PostData_fields
         Server.PostData_Schema].
  pose proof (Server_decodes_field_by_field pairs U) as D. cbv beta zeta in D.
  destruct (yaml.mappingStruct _ _ _ _ _ pairs Server.PostData_zero)
    as [post errs].
  simpl in E, D. subst errs post. now rewrite G.
Qed.

End Handler_stages.

Lemma render_failure_is_500_witness :
  value (@Server.PostHandler Demo.libs_broken_writer _ _ FileReader_lit Demo.cwd "b")
  = gin.PlainText http.StatusInternalServerError "Error rendering markdown" /\
  value (@Part000.PostHandler Demo.libs_broken_writer _ _ FileReader_lit Demo.cwd "b")
  = gin.PlainText http.StatusInternalServerError "Error rendering markdown".
Proof.
  apply (@render_failure_is_500 Demo.libs_broken_writer _ _ FileReader_lit
           Demo.cwd "b"
           (Demo.doc ["---"; "Title: B"; "Order: 1"; "---"; "# B"]) "# B" ""
           {| dyn_type := "*errors.errorString"; message := "short write" |}
           (Server.set_Order 1 (Server.set_Title "B" Server.PostData_zero))
           (Part000.set_Order 1 (Part000.set_Title "B" Part000.PostData_zero))).
  - reflexivity.
  - reflexivity.
  - reflexivity.
  - reflexivity.
Defined.

Lemma template_means_every_stage_succeeded_witness :
  exists postMarkdown parsed remainingMd html,
    value (Read FileReader_lit Demo.cwd "b") = (postMarkdown, None) /\
    value (@frontmatter_Parse_ Demo.libs _ _ Part000.PostData_Schema
             postMarkdown Part000.PostData_zero)
    = (parsed, remainingMd, None) /\
    @goldmark_render Demo.libs rich remainingMd = (html, None) /\
    Part000.set_Content ("<p># B</p>" ++ strings.nl)
      (Part000.set_Order 1 (Part000.set_Title "B" Part000.PostData_zero))
    = Part000.set_Content html parsed /\
    value (@Part000.PostHandler Demo.libs _ _ FileReader_lit Demo.cwd "b")
    = gin.Template http.StatusOK "post.html"
        (Part000.set_Content ("<p># B</p>" ++ strings.nl)
           (Part000.set_Order 1 (Part000.set_Title "B" Part000.PostData_zero))).
Proof.
  apply (proj2 (@template_means_every_stage_succeeded Demo.libs _ _
                  FileReader_lit Demo.cwd "b")).
  reflexivity.
Defined.

Lemma Server_assembles_the_post_witness :
  value (@Server.PostHandler Demo.libs _ _ FileReader_lit Demo.cwd "b")
  = gin.Template http.StatusOK "post.html"
      (Server.set_Content ("<p># B</p>" ++ strings.nl)
         (Server_decoded [("Title", yaml.Str "B"); ("Order", yaml.Int "1" 1)])).
Proof.
  apply (@Server_assembles_the_post Demo.libs _ _ FileReader_lit Demo.cwd "b"
           (Demo.doc ["---"; "Title: B"; "Order: 1"; "---"; "# B"])
           (Demo.doc ["Title: B"; "Order: 1"]) "# B").
  - reflexivity.
  - reflexivity.
  - reflexivity.
  - split.
    + repeat constructor; simpl; intuition discriminate.
    + intros inner H. discriminate H.
  - reflexivity.
  - reflexivity.
Defined.

(** ** The listing, call by call *)

Lemma Cut_None (sep s : string) :
  strings.Cut s sep = None -> ~ occurs sep s.
Proof.
  induction s as [|c s IH]; intros H [before [after E]].
  - cbn [strings.Cut] in H.
    destruct before; [|discriminate]. simpl in E.
    rewrite E, CutPrefix_app in H. discriminate.
  - cbn [strings.Cut] in H.
    destruct (strings.CutPrefix (String c s) sep) eqn:P; [discriminate|].
    destruct (strings.Cut s sep) as [[b a]|] eqn:C; [discriminate|].
    destruct before as [|c' before].
    + simpl in E. rewrite E, CutPrefix_app in P. discriminate.
    + simpl in E. inversion E; subst. apply IH; [reflexivity|].
      now exists before, after.
Qed.

(** [strings.Cut] cuts at the first place where the separator stands. *)
Lemma Cut_first (sep s before after : string) :
  strings.Cut s sep = Some (before, after) ->
  forall b a, s = b ++ sep ++ a -> String.length before <= String.length b.
Proof.
  revert before; induction s as [|c s IH]; intros before H b a E;
    cbn [strings.Cut] in H.
  - destruct (strings.CutPrefix "" sep); [|discriminate].
    inversion H; subst. simpl. lia.
  - destruct (strings.CutPrefix (String c s) sep) eqn:P.
    + inversion H; subst. simpl. lia.
    + destruct (strings.Cut s sep) as [[b' a']|] eqn:C; [|discriminate].
      inversion H; subst.
      destruct b as [|c' b].
      * simpl in E. rewrite E, CutPrefix_app in P. discriminate.
      * simpl in E. inversion E; subst. simpl.
        specialize (IH b' eq_refl b a eq_refl). lia.
Qed.

Lemma reads_app (t1 t2 : list Event) :
  reads (t1 ++ t2) = (reads t1 ++ reads t2)%list.
Proof.
  induction t1 as [|e t1 IH]; [reflexivity|].
  destruct e; simpl; now rewrite IH.
Qed.

Section Listing_calls.
Context {L : Libs} {PostData Author : Type} {schema : Schema PostData Author}.

(** The calls of the callback on one visit. *)
Lemma walkFn_trace (cwd : Node) (md : Markdown) (path : string)
  (info : option filepath.FileInfo) (err : option error) (posts : list PostData) :
  trace (walkFn cwd md path info err posts)
  = if is_document (path, info, err) then
      os_ReadFile path ::
      match value (os.ReadFile cwd path) with
      | (_, Some _) => []
      | (content, None) =>
          match strings.Cut content (strings.nl ++ "---" ++ strings.nl) with
          | Some (block, body) =>
              yaml_Unmarshal block ::
              match snd (unmarshal block zero_PostData) with
              | Some _ => []
              | None => [Markdown_Convert md body]
              end
          | None => [Markdown_Convert md content]
          end
      end
    else [].
Proof.
  unfold walkFn, is_document.
  destruct info as [info|], err as [e|]; try reflexivity.
  destruct (negb (filepath.IsDir info)
            && strings.HasSuffix (filepath.Name info) ".md"); [|reflexivity].
  rewrite bind_trace. unfold os.ReadFile at 1, call, trace at 1.
  cbn [snd app]. f_equal.
  destruct (value (os.ReadFile cwd path)) as [content [e|]]; [reflexivity|].
  rewrite SplitN_2.
  destruct (strings.Cut content _) as [[block body]|]; simpl.
  - unfold yaml_Unmarshal_, call, bind, Convert, trace; simpl.
    destruct (@unmarshal _ PostData _ _ block zero_PostData) as [postData [e|]];
      [reflexivity|].
    simpl. destruct (goldmark_render md body) as [html [f|]]; reflexivity.
  - unfold call, bind, Convert, trace; simpl.
    destruct (goldmark_render md content) as [html [f|]]; reflexivity.
Qed.

(** The listing cuts a document at the first "\n---\n" and nowhere else:
    without one, it converts the whole text and never calls the decoder;
    with one, it decodes the text before the first one and, when that
    decodes, converts all the text after it, later sentinel lines
    included. *)
Theorem listing_cuts_at_the_first_separator (cwd : Node) (md : Markdown)
  (path : string) (info : filepath.FileInfo) (posts : list PostData)
  (content : string) :
  let sep := strings.nl ++ "---" ++ strings.nl in
  filepath.IsDir info = false ->
  strings.HasSuffix (filepath.Name info) ".md" = true ->
  value (os.ReadFile cwd path) = (content, None) ->
  (~ occurs sep content ->
   trace (walkFn cwd md path (Some info) None posts)
   = [os_ReadFile path; Markdown_Convert md content]) /\
  (occurs sep content ->
   exists block body,
     content = block ++ sep ++ body /\
     (forall b a, content = b ++ sep ++ a ->
                  String.length block <= String.length b) /\
     trace (walkFn cwd md path (Some info) None posts)
     = os_ReadFile path :: yaml_Unmarshal block ::
       match snd (unmarshal block zero_PostData) with
       | Some _ => []
       | None => [Markdown_Convert md body]
       end).
Proof.
  intros sep NotDir Suffix R. rewrite walkFn_trace. unfold is_document.
  rewrite NotDir, Suffix, R. cbn [negb andb]. fold sep.
  destruct (strings.Cut content sep) as [[block body]|] eqn:C; split.
  - intros N. exfalso. apply N. exists block, body. now apply Cut_Some.
  - intros _. exists block, body. split; [now apply Cut_Some|].
    split; [now apply (Cut_first sep content block body)|reflexivity].
  - reflexivity.
  - intros O. exfalso. now apply (Cut_None sep content).
Qed.

(** What the calls of the callback over a list of visits read. *)
Lemma run_walkFn_reads (cwd : Node) (md : Markdown) (vs : list Visit) :
  forall posts,
  exists unread,
    map visit_path (filter is_document vs)
    = (reads (trace (run (walkFn cwd md) vs posts)) ++ unread)%list /\
    (snd (value (run (walkFn cwd md) vs posts)) = None -> unread = []).
Proof.
  induction vs as [|[[path info] err] vs IH]; intros posts.
  - exists []. split; reflexivity.
  - cbn [run filter]. rewrite bind_trace, bind_value, reads_app, walkFn_trace.
    pose proof (walkFn_value cwd md path info err posts) as V.
    destruct (value (walkFn cwd md path info err posts)) as [posts' [e|]].
    + exists (map visit_path (filter is_document vs)).
      cbn [trace ret snd reads]. rewrite app_nil_r. split; [|discriminate].
      destruct (is_document (path, info, err)); cbn [map visit_path fst].
      * destruct (value (os.ReadFile cwd path)) as [content [e'|]];
          [reflexivity|].
        destruct (strings.Cut content _) as [[block body]|]; [|reflexivity].
        now destruct (snd (unmarshal block zero_PostData)).
      * reflexivity.
    + destruct (IH posts') as [unread [E N]]. exists unread. split; [|exact N].
      destruct (is_document (path, info, err)); cbn [map visit_path fst].
      * rewrite E.
        destruct (value (os.ReadFile cwd path)) as [content [e'|]];
          [reflexivity|].
        destruct (strings.Cut content _) as [[block body]|]; [|reflexivity].
        now destruct (snd (unmarshal block zero_PostData)).
      * rewrite E. reflexivity.
Qed.

Lemma run_walkFn_calls (cwd : Node) (vs : list Visit) :
  forall posts,
    Forall listing_call (trace (run (walkFn cwd (New false [])) vs posts)).
Proof.
  induction vs as [|[[path info] err] vs IH]; intros posts.
  - constructor.
  - cbn [run]. rewrite bind_trace. apply Forall_app. split.
    + rewrite walkFn_trace. destruct (is_document _); [|constructor].
      constructor; [exact I|].
      destruct (value (os.ReadFile cwd path)) as [content [e'|]]; [constructor|].
      destruct (strings.Cut content _) as [[block body]|].
      * constructor; [exact I|].
        destruct (snd (unmarshal block zero_PostData)); repeat constructor.
      * repeat constructor.
    + destruct (value (walkFn cwd (New false []) path info err posts))
        as [posts' [e|]]; [constructor|apply IH].
Qed.

(** The listing reads documents and nothing else, each at most once and in
    walk order, and all of them when it succeeds; besides the walk and
    these reads it only calls [yaml.Unmarshal] and [Convert] on the
    converter without extensions (never [os.Open], never
    [frontmatter.Parse], never the converter of the single-post view). *)
Theorem listing_reads_the_documents_in_walk_order (cwd : Node) (dir : string) :
  (exists unread,
      documents cwd dir
      = (reads (trace (loadMarkdownPosts cwd dir)) ++ unread)%list /\
      (snd (value (loadMarkdownPosts cwd dir)) = None -> unread = [])) /\
  Forall listing_call (trace (loadMarkdownPosts cwd dir)).
Proof.
  unfold loadMarkdownPosts.
  rewrite Walk_run by apply walkFn_never_skips.
  rewrite bind_assoc. rewrite !bind_trace, !bind_value.
  cbn [call trace value fst snd app].
  destruct (run_walkFn_reads cwd (New false []) (root_visits cwd dir) [])
    as [unread [E N]].
  pose proof (run_walkFn_calls cwd (root_visits cwd dir) []) as C.
  destruct (run (walkFn cwd (New false [])) (root_visits cwd dir) [])
    as [[posts [e|]] t]; cbn [trace value fst snd ret] in *;
    rewrite ?app_nil_r.
  - split; [|constructor; [exact I|exact C]].
    exists unread. split; [exact E|discriminate].
  - split; [|constructor; [exact I|exact C]].
    exists unread. split; [exact E|intros _; now apply N].
Qed.

End Listing_calls.

Lemma listing_cuts_at_the_first_separator_witness :
  exists block body,
    Demo.doc ["Title: A"; "---"; "one"; "---"; "two"]
    = block ++ (strings.nl ++ "---" ++ strings.nl) ++ body /\
    (forall b a,
        Demo.doc ["Title: A"; "---"; "one"; "---"; "two"]
        = b ++ (strings.nl ++ "---" ++ strings.nl) ++ a ->
        String.length block <= String.length b) /\
    trace (@walkFn Demo.libs _ _ Part000.PostData_Schema
             (Demo.posts_dir "two.md"
                (Demo.doc ["Title: A"; "---"; "one"; "---"; "two"]))
             (New false []) "markdown/two.md"
             (Some {| filepath.Name := "two.md"; filepath.IsDir := false |})
             None [])
    = os_ReadFile "markdown/two.md" :: yaml_Unmarshal block ::
      match snd (@unmarshal Demo.libs _ _ Part000.PostData_Schema block
                   Part000.PostData_zero) with
      | Some _ => []
      | None => [Markdown_Convert (New false []) body]
      end.
Proof.
  apply (proj2 (@listing_cuts_at_the_first_separator Demo.libs _ _
                  Part000.PostData_Schema
                  (Demo.posts_dir "two.md"
                     (Demo.doc ["Title: A"; "---"; "one"; "---"; "two"]))
                  (New false []) "markdown/two.md"
                  {| filepath.Name := "two.md"; filepath.IsDir := false |} []
                  (Demo.doc ["Title: A"; "---"; "one"; "---"; "two"])
                  eq_refl eq_refl eq_refl)).
  exists "Title: A", (Demo.doc ["one"; "---"; "two"]). reflexivity.
Defined.

(** In the small world: the body of the cut document keeps its own
    sentinel line. *)
Example body_keeps_later_sentinel_lines :
  body_block (Demo.doc ["Title: A"; "---"; "one"; "---"; "two"])
  = Demo.doc ["one"; "---"; "two"].
Proof. reflexivity. Qed.

(** ** The handler of [GET /] *)

Section Index.
Context {L : Libs}.

Lemma collect_all_pass {PostData Author : Type} {schema : Schema PostData Author}
  (cwd : Node) (md : Markdown) (vs : list Visit) :
  Forall (fun u => exists added, visit_result cwd md u = inr added) vs ->
  exists posts : list PostData, collect cwd md vs = inr posts.
Proof.
  induction 1 as [|u vs [added Hu] _ [posts IH]]; simpl.
  - now exists [].
  - rewrite Hu, IH. eexists. reflexivity.
Qed.

(** [GET /] ends the process with the error of the first entry of the walk
    that fails (a posts directory that is not there, a directory that
    cannot be listed, a document that cannot be read, decoded or
    converted): one such entry takes the whole server down, in both
    files. *)
Theorem index_is_fatal_at_the_first_failure (cwd : Node)
  (before after : list Visit) (v : Visit) (e : error) :
  root_visits cwd "./markdown" = (before ++ v :: after)%list ->
  Forall (fun u => exists added : option Server.PostData,
              visit_result cwd (New false []) u = inr added) before ->
  Forall (fun u => exists added : option Part000.PostData,
              visit_result cwd (New false []) u = inr added) before ->
  @visit_result _ Server.PostData _ _ cwd (New false []) v = inl e ->
  @visit_result _ Part000.PostData _ _ cwd (New false []) v = inl e ->
  value (Server.index cwd) = inl e /\ value (Part000.index cwd) = inl e.
Proof.
  intros V BS BP FS FP. unfold Server.index, Part000.index.
  rewrite !bind_value, !loadMarkdownPosts_collect, V, !collect_app.
  destruct (collect_all_pass cwd _ before BS) as [ps ->].
  destruct (collect_all_pass cwd _ before BP) as [pp ->].
  cbn [collect]. rewrite FS, FP. split; reflexivity.
Qed.

(** When every entry of the walk passes, [GET /] answers 200 with the
    template [index.html] and one post for each document, in walk order. *)
Theorem index_lists_every_document (cwd : Node) :
  Forall (fun u => exists added : option Server.PostData,
              visit_result cwd (New false []) u = inr added)
    (root_visits cwd "./markdown") ->
  Forall (fun u => exists added : option Part000.PostData,
              visit_result cwd (New false []) u = inr added)
    (root_visits cwd "./markdown") ->
  (exists posts,
      value (Server.index cwd)
      = inr (gin.Template http.StatusOK "index.html" posts) /\
      Forall2 (fun path post => assemble cwd (New false []) path = inr post)
        (documents cwd "./markdown") posts) /\
  (exists posts,
      value (Part000.index cwd)
      = inr (gin.Template http.StatusOK "index.html" posts) /\
      Forall2 (fun path post => assemble cwd (New false []) path = inr post)
        (documents cwd "./markdown") posts).
Proof.
  intros AS AP. unfold Server.index, Part000.index.
  rewrite !bind_value, !loadMarkdownPosts_collect.
  destruct (collect_all_pass cwd _ _ AS) as [ps CS].
  destruct (collect_all_pass cwd _ _ AP) as [pp CP]. rewrite CS, CP.
  split; eexists; (split; [reflexivity|]); now apply collect_posts.
Qed.

End Index.

Lemma index_is_fatal_witness :
  (value (@Server.index Demo.libs Demo.cwd_denied)
   = inl (PathError "open" "markdown/b.md" EACCES) /\
   value (@Part000.index Demo.libs Demo.cwd_denied)
   = inl (PathError "open" "markdown/b.md" EACCES)) /\
  (value (@Server.index Demo.libs (Directory None []))
   = inl (PathError "lstat" "./markdown" ENOENT) /\
   value (@Part000.index Demo.libs (Directory None []))
   = inl (PathError "lstat" "./markdown" ENOENT)).
Proof.
  split.
  - apply (@index_is_fatal_at_the_first_failure Demo.libs Demo.cwd_denied
             [("./markdown",
               Some {| filepath.Name := "markdown"; filepath.IsDir := true |},
               None);
              ("markdown/a.md",
               Some {| filepath.Name := "a.md"; filepath.IsDir := false |}, None)]
             [("markdown/c.md",
               Some {| filepath.Name := "c.md"; filepath.IsDir := false |}, None)]
             ("markdown/b.md",
              Some {| filepath.Name := "b.md"; filepath.IsDir := false |}, None)).
    + reflexivity.
    + repeat constructor; eexists; reflexivity.
    + repeat constructor; eexists; reflexivity.
    + reflexivity.
    + reflexivity.
  - apply (@index_is_fatal_at_the_first_failure Demo.libs (Directory None [])
             [] []
             ("./markdown", None, Some (PathError "lstat" "./markdown" ENOENT))).
    + reflexivity.
    + constructor.
    + constructor.
    + reflexivity.
    + reflexivity.
Defined.

Lemma index_lists_every_document_witness :
  (exists posts,
      value (@Server.index Demo.libs Demo.cwd)
      = inr (gin.Template http.StatusOK "index.html" posts) /\
      Forall2 (fun path post =>
                 @assemble Demo.libs _ _ Server.PostData_Schema
                   Demo.cwd (New false []) path = inr post)
        (documents Demo.cwd "./markdown") posts) /\
  (exists posts,
      value (@Part000.index Demo.libs Demo.cwd)
      = inr (gin.Template http.StatusOK "index.html" posts) /\
      Forall2 (fun path post =>
                 @assemble Demo.libs _ _ Part000.PostData_Schema
                   Demo.cwd (New false []) path = inr post)
        (documents Demo.cwd "./markdown") posts).
Proof.
  apply (@index_lists_every_document Demo.libs Demo.cwd);
    repeat constructor; eexists; reflexivity.
Defined.

(** ** The two versions of [PostData] *)

Lemma mappingStruct_cons {P Q : Type} (zeroQ : Q)
  (inner : list (string * yaml.Field Q unit))
  (fields : list (string * yaml.Field P Q))
  (key : string) (v : yaml.Value) (rest : list (string * yaml.Value)) (out : P) :
  yaml.mappingStruct P Q zeroQ inner fields ((key, v) :: rest) out
  = let (out1, errs) := decode_pair zeroQ inner fields key v out in
    let (out2, errs') := yaml.mappingStruct P Q zeroQ inner fields rest out1 in
    (out2, (errs ++ errs')%list).
Proof.
  cbn [yaml.mappingStruct]. unfold decode_pair.
  destruct (yaml.find key fields); [reflexivity|].
  now destruct (yaml.mappingStruct P Q zeroQ inner fields rest out).
Qed.

Lemma decode_pair_same_fields (key : string) (v : yaml.Value)
  (p : Server.PostData) (q : Part000.PostData) :
  same_fields p q ->
  same_fields
    (fst (decode_pair Author_zero Author_yaml Server.PostData_yaml key v p))
    (fst (decode_pair Author_zero Author_yaml Part000.PostData_yaml key v q)) /\
  (snd (decode_pair Author_zero Author_yaml Part000.PostData_yaml key v q) = [] ->
   snd (decode_pair Author_zero Author_yaml Server.PostData_yaml key v p) = []).
Proof.
  intros (H1 & H2 & H3 & H4 & H5 & H6 & H7 & H8 & H9 & H10).
  unfold decode_pair, Server.PostData_yaml, Part000.PostData_yaml.
  cbn [yaml.find].
  repeat match goal with
         | |- context [String.eqb ?a key] =>
             let E := fresh "E" in
             destruct (String.eqb a key) eqn:E;
             [apply String.eqb_eq in E; subst key;
              cbn [String.eqb Ascii.eqb Bool.eqb]|]
         end.
  all: cbn [yaml.decode_field].
  all: try (destruct (yaml.to_string v); cbn [fst snd];
            unfold same_fields; cbn; intuition (auto; discriminate)).
  all: try (destruct (yaml.to_int v); cbn [fst snd];
            unfold same_fields; cbn; intuition (auto; discriminate)).
  all: try (unfold same_fields; cbn; intuition (auto; discriminate)).
  all: rewrite H9; destruct v; cbn [fst snd];
       try destruct (yaml.mapping_leaf Author Author_yaml pairs (Part000.Author_ q));
       unfold same_fields; cbn; intuition (auto; discriminate).
Qed.

Lemma mappingStruct_same_fields (pairs : list (string * yaml.Value)) :
  forall (p : Server.PostData) (q : Part000.PostData),
    same_fields p q ->
    same_fields
      (fst (yaml.mappingStruct _ _ Author_zero Author_yaml Server.PostData_yaml
              pairs p))
      (fst (yaml.mappingStruct _ _ Author_zero Author_yaml Part000.PostData_yaml
              pairs q)) /\
    (snd (yaml.mappingStruct _ _ Author_zero Author_yaml Part000.PostData_yaml
            pairs q) = [] ->
     snd (yaml.mappingStruct _ _ Author_zero Author_yaml Server.PostData_yaml
            pairs p) = []).
Proof.
  induction pairs as [|[key v] pairs IH]; intros p q S.
  - split; [exact S|reflexivity].
  - rewrite !mappingStruct_cons.
    destruct (decode_pair_same_fields key v p q S) as [S1 E1].
    destruct (decode_pair Author_zero Author_yaml Server.PostData_yaml key v p)
      as [p1 errsS].
    destruct (decode_pair Author_zero Author_yaml Part000.PostData_yaml key v q)
      as [q1 errsP].
    cbn [fst snd] in S1, E1.
    destruct (IH p1 q1 S1) as [S2 E2].
    destruct (yaml.mappingStruct _ _ _ _ Server.PostData_yaml pairs p1)
      as [p2 errsS'].
    destruct (yaml.mappingStruct _ _ _ _ Part000.PostData_yaml pairs q1)
      as [q2 errsP'].
    cbn [fst snd] in *. split; [exact S2|].
    intros H. apply app_eq_nil in H. destruct H as [Ha Hb].
    now rewrite (E1 Ha), (E2 Hb).
Qed.

Lemma zero_same_fields : same_fields Server.PostData_zero Part000.PostData_zero.
Proof. repeat split. Qed.

Section Two_versions.
Context {L : Libs} {T : Type} {reader : SlugRender T}.

Lemma frontmatter_Parse_same_fields (doc rest : string) (q : Part000.PostData) :
  value (frontmatter_Parse_ doc Part000.PostData_zero) = (q, rest, None) ->
  exists p,
    value (frontmatter_Parse_ doc Server.PostData_zero) = (p, rest, None) /\
    same_fields p q.
Proof.
  unfold frontmatter_Parse_, call, value. cbn [fst].
  destruct (frontmatter_read doc) as [f|[[block|] rest']]; [discriminate| |].
  - unfold unmarshal.
    destruct (yaml_parse block) as [f|[[| | | | |pairs]|]]; cbn;
      try discriminate;
      try (intros H; inversion H; subst; eexists; split;
           [reflexivity|apply zero_same_fields]).
    destruct (mappingStruct_same_fields pairs _ _ zero_same_fields) as [S E].
    destruct (yaml.mappingStruct _ _ _ _ Server.PostData_yaml pairs _)
      as [p errsS].
    destruct (yaml.mappingStruct _ _ _ _ Part000.PostData_yaml pairs _)
      as [q' errsP].
    cbn [fst snd] in *.
    destruct errsP; [|discriminate]. rewrite (E eq_refl).
    intros H; inversion H; subst. exists p. split; [reflexivity|exact S].
  - intros H; inversion H; subst. eexists. split; [reflexivity|].
    apply zero_same_fields.
Qed.

(** Whatever the second file answers with a post, [server.go] answers with
    the same post without its [Date]: the status and the template are the
    same, and every field [server.go] has, the content included, holds
    the same value. *)
Theorem Server_answers_what_Part000_answers (sl : T) (cwd : Node) (slug : string)
  (q : Part000.PostData) :
  gin.rendered (value (Part000.PostHandler sl cwd slug)) = Some q ->
  exists p,
    value (Server.PostHandler sl cwd slug)
    = gin.Template http.StatusOK "post.html" p /\
    value (Part000.PostHandler sl cwd slug)
    = gin.Template http.StatusOK "post.html" q /\
    same_fields p q.
Proof.
  rewrite Server_PostHandler_value, Part000_PostHandler_value.
  destruct (value (Read sl cwd slug)) as [postMarkdown [e|]]; [discriminate|].
  destruct (value (frontmatter_Parse_ postMarkdown Part000.PostData_zero))
    as [[parsed rest] [e|]] eqn:P; [discriminate|].
  destruct (frontmatter_Parse_same_fields _ _ _ P) as [p [PS S]]. rewrite PS.
  destruct (goldmark_render rich rest) as [html [f|]]; [discriminate|].
  intros H; inversion H; subst.
  exists (Server.set_Content html p). repeat split; try apply S.
Qed.

End Two_versions.

Lemma Server_answers_what_Part000_answers_witness :
  exists p,
    value (@Server.PostHandler Demo.libs _ _ FileReader_lit Demo.cwd "b")
    = gin.Template http.StatusOK "post.html" p /\
    value (@Part000.PostHandler Demo.libs _ _ FileReader_lit Demo.cwd "b")
    = gin.Template http.StatusOK "post.html"
        (Part000.set_Content ("<p># B</p>" ++ strings.nl)
           (Part000.set_Order 1 (Part000.set_Title "B" Part000.PostData_zero))) /\
    same_fields p
      (Part000.set_Content ("<p># B</p>" ++ strings.nl)
         (Part000.set_Order 1 (Part000.set_Title "B" Part000.PostData_zero))).
Proof.
  apply (@Server_answers_what_Part000_answers Demo.libs _ _ FileReader_lit
           Demo.cwd "b").
  reflexivity.
Defined.

(** The converse fails: a [Date] that is no scalar is a type error in the
    second file only. *)
Example Date_sequence_fails_in_Part000_only :
  let block := [ ("Title", yaml.Str "T"); ("Date", yaml.Seq []) ] in
  snd (yaml.mappingStruct _ _ Author_zero Author_yaml Server.PostData_yaml block
         Server.PostData_zero) = [] /\
  snd (yaml.mappingStruct _ _ Author_zero Author_yaml Part000.PostData_yaml block
         Part000.PostData_zero) = ["Date"].
Proof. split; reflexivity. Qed.

(** Keys are matched to the tags letter for letter: a pair whose key is
    none of the struct's keys (for instance [title], or [Author]) changes
    nothing in either file, wherever it stands in the block, and a [Date]
    pair changes nothing in [server.go]. *)
Theorem keys_outside_the_struct_change_nothing (key : string) (v : yaml.Value)
  (before after : list (string * yaml.Value))
  (p : Server.PostData) (q : Part000.PostData) :
  ~ In key ["Title"; "Slug"; "Description"; "Order"; "MetaDescription";
            "MetaPropertyTitle"; "MetaPropertyDescription"; "MetaOgURL";
            "author"; "content"] ->
  yaml.mappingStruct _ _ Author_zero Author_yaml Server.PostData_yaml
    (before ++ (key, v) :: after) p
  = yaml.mappingStruct _ _ Author_zero Author_yaml Server.PostData_yaml
      (before ++ after) p /\
  (key <> "Date" ->
   yaml.mappingStruct _ _ Author_zero Author_yaml Part000.PostData_yaml
     (before ++ (key, v) :: after) q
   = yaml.mappingStruct _ _ Author_zero Author_yaml Part000.PostData_yaml
       (before ++ after) q).
Proof.
  intros N. split; [|intros ND]; apply unknown_key_is_ignored;
    unfold Server.PostData_yaml, Part000.PostData_yaml; cbn [yaml.find];
    repeat match goal with
           | |- context [String.eqb ?a key] =>
               let E := fresh "E" in
               destruct (String.eqb a key) eqn:E;
               [apply String.eqb_eq in E; subst key; exfalso|]
           end;
    try reflexivity; try (apply N; simpl; tauto); now apply ND.
Qed.

Lemma keys_outside_the_struct_witness :
  yaml.mappingStruct _ _ Author_zero Author_yaml Server.PostData_yaml
    ([("Title", yaml.Str "T")] ++ ("title", yaml.Str "lower") :: []) Server.PostData_zero
  = yaml.mappingStruct _ _ Author_zero Author_yaml Server.PostData_yaml
      ([("Title", yaml.Str "T")] ++ []) Server.PostData_zero /\
  ("title" <> "Date" ->
   yaml.mappingStruct _ _ Author_zero Author_yaml Part000.PostData_yaml
     ([("Title", yaml.Str "T")] ++ ("title", yaml.Str "lower") :: [])
     Part000.PostData_zero
   = yaml.mappingStruct _ _ Author_zero Author_yaml Part000.PostData_yaml
       ([("Title", yaml.Str "T")] ++ []) Part000.PostData_zero).
Proof.
  apply (keys_outside_the_struct_change_nothing "title" (yaml.Str "lower")
           [("Title", yaml.Str "T")] [] Server.PostData_zero Part000.PostData_zero).
  simpl. intuition discriminate.
Defined.

(** ** [readAndParse] *)

Section ReadAndParse.
Context {L : Libs} {T : Type} {reader : SlugRender T}.

(** [readAndParse] returns an error with no Markdown: either the error of
    [Read], with the zero post and no call to [frontmatter.Parse], or the
    error of [frontmatter.Parse] on what was read, with the post as far as
    the parse filled it in. *)
Theorem readAndParse_error (sl : T) (cwd : Node) (slug : string)
  (post : Server.PostData) (markdown : string) (e : error) :
  value (Server.readAndParse sl cwd slug) = (post, markdown, Some e) ->
  markdown = "" /\
  ((snd (value (Read sl cwd slug)) = Some e /\
    post = Server.PostData_zero /\
    trace (Server.readAndParse sl cwd slug) = trace (Read sl cwd slug)) \/
   (exists postMarkdown rest,
       value (Read sl cwd slug) = (postMarkdown, None) /\
       value (frontmatter_Parse_ postMarkdown Server.PostData_zero)
       = (post, rest, Some e) /\
       trace (Server.readAndParse sl cwd slug)
       = (trace (Read sl cwd slug) ++ [frontmatter_Parse postMarkdown])%list)).
Proof.
  unfold Server.readAndParse. rewrite bind_value, bind_trace.
  destruct (value (Read sl cwd slug)) as [postMarkdown [e'|]] eqn:R.
  - intros H; inversion H; subst. split; [reflexivity|]. left.
    cbn [trace ret snd]. now rewrite app_nil_r.
  - rewrite bind_value, bind_trace.
    destruct (value (frontmatter_Parse_ postMarkdown Server.PostData_zero))
      as [[parsed rest] [e'|]] eqn:P; [|discriminate].
    intros H; inversion H; subst. split; [reflexivity|]. right.
    exists postMarkdown, rest. split; [reflexivity|]. split.
    + exact P.
    + cbn [trace ret snd frontmatter_Parse_ call]. now rewrite app_nil_r.
Qed.

End ReadAndParse.

Lemma readAndParse_error_witness :
  "" = "" /\
  ((snd (value (Read FileReader_lit Demo.cwd "missing"))
    = Some (PathError "open" "markdown/missing.md" ENOENT) /\
    Server.PostData_zero = Server.PostData_zero /\
    trace (@Server.readAndParse Demo.libs _ _ FileReader_lit Demo.cwd "missing")
    = trace (Read FileReader_lit Demo.cwd "missing")) \/
   (exists postMarkdown rest,
       value (Read FileReader_lit Demo.cwd "missing") = (postMarkdown, None) /\
       value (@frontmatter_Parse_ Demo.libs _ _ Server.PostData_Schema
                postMarkdown Server.PostData_zero)
       = (Server.PostData_zero, rest,
          Some (PathError "open" "markdown/missing.md" ENOENT)) /\
       trace (@Server.readAndParse Demo.libs _ _ FileReader_lit Demo.cwd "missing")
       = (trace (Read FileReader_lit Demo.cwd "missing")
          ++ [frontmatter_Parse postMarkdown])%list)).
Proof.
  apply (@readAndParse_error Demo.libs _ _ FileReader_lit Demo.cwd "missing").
  reflexivity.
Defined.

(** ** Which entries are documents *)



(** In the small world: what is and what is not a document. *)
Example which_names_are_documents :
  map (fun name => is_document
                     ("markdown/" ++ name,
                      Some {| filepath.Name := name; filepath.IsDir := false |},
                      None))
    ["a.md"; ".md"; "a.MD"; "a.md.bak"; "amd"; "a.markdown"]
  = [true; true; false; false; false; false].
Proof. reflexivity. Qed.

(** ** The bodies of the second file *)

Section Part000_bodies.
Context {L : Libs} {T : Type} {reader : SlugRender T}.

(** In the second file the body of the 404, and of the 500 for a front
    matter that does not parse, is the message followed by the type and
    the text of the error, as [fmt] reports an argument no verb asks
    for. *)
Theorem Part000_bodies_carry_the_error (sl : T) (cwd : Node) (slug : string) :
  (forall text e,
      value (Read sl cwd slug) = (text, Some e) ->
      value (Part000.PostHandler sl cwd slug)
      = gin.PlainText http.StatusNotFound
          ("Post not found"
           ++ "%!(EXTRA " ++ (TypeOf e ++ "=" ++ Error e) ++ ")")) /\
  (forall postMarkdown out rest e,
      value (Read sl cwd slug) = (postMarkdown, None) ->
      value (frontmatter_Parse_ postMarkdown Part000.PostData_zero)
      = (out, rest, Some e) ->
      value (Part000.PostHandler sl cwd slug)
      = gin.PlainText http.StatusInternalServerError
          ("Error parsing frontmatter"
           ++ "%!(EXTRA " ++ (TypeOf e ++ "=" ++ Error e) ++ ")")).
Proof.
  rewrite Part000_PostHandler_value. split.
  - intros text e ->. reflexivity.
  - intros postMarkdown out rest e -> ->. reflexivity.
Qed.

End Part000_bodies.

Lemma Part000_bodies_carry_the_error_witness :
  value (@Part000.PostHandler Demo.libs _ _ FileReader_lit Demo.cwd_denied "b")
  = gin.PlainText http.StatusNotFound
      ("Post not found" ++ "%!(EXTRA "
       ++ (TypeOf (PathError "open" "markdown/b.md" EACCES) ++ "="
           ++ Error (PathError "open" "markdown/b.md" EACCES)) ++ ")").
Proof.
  apply (proj1 (@Part000_bodies_carry_the_error Demo.libs _ _ FileReader_lit
                  Demo.cwd_denied "b") "").
  reflexivity.
Defined.
